(** * WordWise carousel editor: slide editor handlers and the create-slide endpoint

    A shallow embedding of
      - the Instagram-style slide editor component
        (handlers [handleContentChange], [handleFormatText],
        [handleApplyStyleSuggestion], [addNewSlide], [duplicateSlide],
        [deleteCurrentSlide], its two effects and the toolbar buttons), and
      - the route handler [POST] of [app/api/projects/[id]/slides/route.ts]
        and the handlers [GET], [PUT] and [DELETE] of
        [app/api/projects/[id]/route.ts].

    JavaScript strings are sequences of UTF-16 code units, so a buffer is a
    list of code units and [.length] is the length of that list.  Handlers
    are state transformers on a [World] made of the editor state, the
    relational store behind the endpoint and the trace of requests and
    console output.  A handler that awaits a request is given twice: as
    the transformer that runs it to its end, and in [Async] as the part
    that runs at the event and the part that runs when the promise
    settles, other events being handled in between. *)

From Stdlib Require Import String Ascii NArith ZArith Arith Bool List Lia.
From Stdlib Require Import Sorting.Sorted Sorting.Permutation.
Import ListNotations.


(* ================================================================== *)
(** ** JavaScript strings *)
(* ================================================================== *)

Module JS.

(** A UTF-16 code unit. *)
Definition codeunit := N.

Definition jsstring := list codeunit.

(** A string literal of the source, as code units. *)
Definition lit (s : string) : jsstring :=
  map N_of_ascii (list_ascii_of_string s).

(** A string is falsy exactly when it is empty. *)
Definition truthy (s : jsstring) : bool :=
  match s with [] => false | _ :: _ => true end.

(** [s || d] on strings. *)
Definition or_else (s d : jsstring) : jsstring :=
  if truthy s then s else d.

(** [s.substring(a, b)]: both indices are clamped to [0, s.length] and
    swapped when [a > b]. *)
Definition substring (s : jsstring) (a b : nat) : jsstring :=
  let a' := Nat.min a (length s) in
  let b' := Nat.min b (length s) in
  let from := Nat.min a' b' in
  let to := Nat.max a' b' in
  firstn (to - from) (skipn from s).

(** [s.substring(a)]: the end index defaults to [s.length]. *)
Definition substring_from (s : jsstring) (a : nat) : jsstring :=
  substring s a (length s).

Fixpoint startsWith (s prefix : jsstring) : bool :=
  match prefix, s with
  | [], _ => true
  | _ :: _, [] => false
  | p :: prefix', c :: s' => N.eqb p c && startsWith s' prefix'
  end.

(** [s.endsWith(suffix)]. *)
Definition endsWith (s suffix : jsstring) : bool :=
  startsWith (rev s) (rev suffix).

(** [s.indexOf(search)]: position of the first occurrence; the empty
    string occurs at position 0. *)
Fixpoint indexOf (s search : jsstring) : option nat :=
  if startsWith s search then Some 0
  else match s with
       | [] => None
       | _ :: s' => option_map S (indexOf s' search)
       end.

(** [s.includes(search)]. *)
Definition includes (s search : jsstring) : bool :=
  match indexOf s search with Some _ => true | None => false end.

(** WhiteSpace and LineTerminator code units, the ones [trim] strips. *)
Definition isWhiteSpace (c : codeunit) : bool :=
  ((9 <=? c) && (c <=? 13) || (c =? 32) || (c =? 160) || (c =? 5760)
   || (8192 <=? c) && (c <=? 8202) || (c =? 8232) || (c =? 8233)
   || (c =? 8239) || (c =? 8287) || (c =? 12288) || (c =? 65279))%N.

Fixpoint trimStart (s : jsstring) : jsstring :=
  match s with
  | c :: s' => if isWhiteSpace c then trimStart s' else s
  | [] => []
  end.

Definition trimEnd (s : jsstring) : jsstring := rev (trimStart (rev s)).

(** [s.trim()]. *)
Definition trim (s : jsstring) : jsstring := trimEnd (trimStart s).

Definition DOLLAR : codeunit := 36%N.

(** GetSubstitution of ECMA-262 for a string pattern: there are no
    captures, so [$$] yields [$], [$&] the matched text, [$`] the text
    before the match, [$'] the text after it; a dollar sign followed by
    anything else (digits and [<] included) stands for itself. *)
Fixpoint GetSubstitution (matched before after template : jsstring)
  : jsstring :=
  match template with
  | [] => []
  | c :: rest =>
      if N.eqb c DOLLAR then
        match rest with
        | [] => [c]
        | d :: rest' =>
            if N.eqb d 36 then DOLLAR :: GetSubstitution matched before after rest'
            else if N.eqb d 38 then matched ++ GetSubstitution matched before after rest'
            else if N.eqb d 96 then before ++ GetSubstitution matched before after rest'
            else if N.eqb d 39 then after ++ GetSubstitution matched before after rest'
            else c :: GetSubstitution matched before after rest
        end
      else c :: GetSubstitution matched before after rest
  end.

(** [s.replace(pattern, replacement)] with a string pattern: only the
    first occurrence is replaced, and the replacement text goes through
    [GetSubstitution]. *)
Definition replace (s pattern replacement : jsstring) : jsstring :=
  match indexOf s pattern with
  | None => s
  | Some pos =>
      let before := firstn pos s in
      let after := skipn (pos + length pattern) s in
      before ++ GetSubstitution pattern before after replacement ++ after
  end.

End JS.

Import JS.

(* ================================================================== *)
(** ** Data model *)
(* ================================================================== *)

(** Identifiers and ISO timestamps are opaque strings. *)
Definition Id := string.
Definition Timestamp := string.

Bind Scope string_scope with Id Timestamp.

(** A slide, with the columns of the [slides] table. *)
Module Slide.
Record t := make {
  id : Id;
  project_id : Id;
  slide_number : nat;
  content : jsstring;
  title : option jsstring;
  tone : option jsstring;
  char_count : nat;
  created_at : Timestamp;
  updated_at : Timestamp
}.

(** [char_count] is the length of [content]. *)
Definition counted (s : t) : Prop := char_count s = length (content s).
End Slide.

Abbreviation Slide := Slide.t.

(** [{ type, original, suggestion }] *)
Record StyleSuggestion := {
  type : string;
  original : jsstring;
  suggestion : jsstring
}.

(* ================================================================== *)
(** ** The create-slide endpoint: [POST /api/projects/[id]/slides] *)
(* ================================================================== *)

Module Server.

(** The columns of [carousel_projects] the handler reads. *)
Record Project := { id : Id; user_id : Id }.

Record Db := {
  carousel_projects : list Project;
  slides : list Slide
}.

(** A JSON value, as [request.json()] yields it.  Numbers are shown as
    integers; a fraction behaves like any other non-zero number in what
    follows. *)
#[warnings="-register-all"] Inductive Json :=
| JNull
| JBool (b : bool)
| JNumber (n : Z)
| JString (s : jsstring)
| JArray (items : list Json)
| JObject (members : list (string * Json)).

(** Truthiness: [null], [false], [0] and [""] are falsy. *)
Definition truthy_json (v : Json) : bool :=
  match v with
  | JNull => false
  | JBool b => b
  | JNumber n => negb (Z.eqb n 0)
  | JString s => truthy s
  | JArray _ | JObject _ => true
  end.

(** [v.length]: strings and arrays have one, for the other values the
    property is [undefined]. *)
Definition length_of (v : Json) : option nat :=
  match v with
  | JString s => Some (length s)
  | JArray items => Some (length items)
  | _ => None
  end.

(** What the storage service decides on its own during one request:
    whether a query fails, the id and timestamp it generates for a new
    row, what the [char_count] column holds when the handler supplies no
    value for it, and the text the [content] column holds for a value
    that is not a string. *)
Record Storage := {
  select_error : bool;
  insert_error : bool;
  generated_id : Id;
  generated_at : Timestamp;
  default_char_count : nat;
  cast_text : Json -> jsstring
}.

(** The JSON body after destructuring; an absent field is [None].  The
    handler does not check the type of [content], which is taken as any
    JSON value; [slide_number], [title] and [tone] are taken with the
    type of their column. *)
Record Body := {
  slide_number : option nat;
  content : option Json;
  title : option jsstring;
  tone : option jsstring
}.

(** A request: the session of the caller, the [id] route parameter and
    the body ([None] when [request.json()] or the destructuring of its
    result throws). *)
Record Request := {
  session : option Id;
  params_id : Id;
  json : option Body
}.

Inductive Payload :=
| slide_payload (slide : Slide)
| error_payload (error : string).

Record Response := { status : nat; payload : Payload }.

(** [NextResponse.json(body)] and [NextResponse.json(body, { status })]. *)
Definition json_slide (s : Slide) : Response :=
  {| status := 200; payload := slide_payload s |}.
Definition json_error (msg : string) (st : nat) : Response :=
  {| status := st; payload := error_payload msg |}.

(** [response.ok] *)
Definition ok (r : Response) : bool :=
  (200 <=? status r) && (status r <=? 299).

(** *** Exceptions of the [try] block *)

Inductive Exn :=
| AuthenticationRequired   (* Error("Authentication required") *)
| OtherError.              (* anything else that was thrown *)

Definition Try (A : Type) := (A + Exn)%type.
Definition ret {A} (a : A) : Try A := inl a.
Definition throw {A} (e : Exn) : Try A := inr e.
Definition bind {A B} (m : Try A) (k : A -> Try B) : Try B :=
  match m with inl a => k a | inr e => inr e end.

Declare Scope try_scope.
Delimit Scope try_scope with try.
Notation "x <- m ;; k" := (bind m (fun x => k))
  (at level 61, m at next level, right associativity) : try_scope.

(** Modelled from the spec: [requireAuth] of [@/lib/auth] is not among
    the sources.  It yields the id of the authenticated user and, when
    there is no valid session, raises the authentication error that the
    handler's [catch] recognises by its message. *)
Definition requireAuth (req : Request) : Try Id :=
  match session req with
  | Some userId => ret userId
  | None => throw AuthenticationRequired
  end.

(** [await request.json()] followed by the destructuring of the body. *)
Definition request_json (req : Request) : Try Body :=
  match json req with
  | Some body => ret body
  | None => throw OtherError
  end.

(** [.single()]: the row when the filter kept exactly one, an error
    otherwise. *)
Definition single {A} (rows : list A) : option A :=
  match rows with
  | [row] => Some row
  | _ => None
  end.

(** [from("carousel_projects").select("id").eq("id", id)
     .eq("user_id", userId).single()]; [None] stands for
    [projectError || !project]. *)
Definition select_project (db : Db) (st : Storage) (id userId : Id)
  : option Project :=
  if select_error st then None
  else single (filter (fun p => String.eqb (Server.id p) id
                                && String.eqb (user_id p) userId)
                      (carousel_projects db)).

(** [x || d] for a number: [undefined], [null] and [0] are falsy. *)
Definition number_or (x : option nat) (d : nat) : nat :=
  match x with
  | Some (S n) => S n
  | _ => d
  end.

(** [content || ""] *)
Definition content_or_empty (x : option Json) : Json :=
  match x with
  | Some v => if truthy_json v then v else JString []
  | None => JString []
  end.

(** [x || null] *)
Definition string_or_null (x : option jsstring) : option jsstring :=
  match x with
  | Some s => if truthy s then Some s else None
  | None => None
  end.

(** The object handed to [insert]; a [char_count] that is [undefined] is
    not part of what is sent. *)
Module Insert.
Record t := make {
  project_id : Id;
  slide_number : nat;
  content : Json;
  title : option jsstring;
  tone : option jsstring;
  char_count : option nat
}.
End Insert.

(** [{ project_id: id, slide_number: slide_number || 1,
       content: content || "", title: title || null, tone: tone || null,
       char_count: (content || "").length }] *)
Definition inserted (id : Id) (body : Body) : Insert.t :=
  {| Insert.project_id := id;
     Insert.slide_number := number_or (slide_number body) 1;
     Insert.content := content_or_empty (content body);
     Insert.title := string_or_null (title body);
     Insert.tone := string_or_null (tone body);
     Insert.char_count := length_of (content_or_empty (content body)) |}.

(** The row the storage service makes of it, with the id and timestamps
    it generates. *)
Definition stored (st : Storage) (r : Insert.t) : Slide :=
  {| Slide.id := generated_id st;
     Slide.project_id := Insert.project_id r;
     Slide.slide_number := Insert.slide_number r;
     Slide.content :=
       match Insert.content r with
       | JString s => s
       | v => cast_text st v
       end;
     Slide.title := Insert.title r;
     Slide.tone := Insert.tone r;
     Slide.char_count :=
       match Insert.char_count r with
       | Some n => n
       | None => default_char_count st
       end;
     Slide.created_at := generated_at st;
     Slide.updated_at := generated_at st |}.

(** The row [insert(...).select().single()] returns. *)
Definition new_row (st : Storage) (id : Id) (body : Body) : Slide :=
  stored st (inserted id body).

(** [from("slides").insert(row).select().single()] *)
Definition insert_slide (db : Db) (st : Storage) (row : Slide)
  : Db * option Slide :=
  if insert_error st then (db, None)
  else ({| carousel_projects := carousel_projects db;
           slides := slides db ++ [row] |}, Some row).

(** The body of the [try] block. *)
Definition POST_try (db : Db) (st : Storage) (req : Request)
  : Try (Db * Response) :=
  (let id := params_id req in
   userId <- requireAuth req ;;
   body <- request_json req ;;
   match select_project db st id userId with
   | None => ret (db, json_error "Project not found" 404)
   | Some _ =>
       match insert_slide db st (new_row st id body) with
       | (db', None) => ret (db', json_error "Failed to create slide" 500)
       | (db', Some slide) => ret (db', json_slide slide)
       end
   end)%try.

(** The handler: the [try] block and its [catch]. *)
Definition POST (db : Db) (st : Storage) (req : Request) : Db * Response :=
  match POST_try db st req with
  | inl result => result
  | inr AuthenticationRequired =>
      (db, json_error "Authentication required" 401)
  | inr OtherError => (db, json_error "Internal server error" 500)
  end.

(** The caller of [req] owns the project the request names. *)
Definition owns (db : Db) (req : Request) : Prop :=
  exists userId p,
    session req = Some userId /\ In p (carousel_projects db) /\
    Server.id p = params_id req /\ user_id p = userId.

End Server.

(* ================================================================== *)
(** ** The slide editor component *)
(* ================================================================== *)

Module Editor.

(** *** Inline formatting: the [switch] of [handleFormatText]

    [formatText content start end_ format value] is the pair
    [(newContent, newCursorPos)] computed from the buffer, the selection
    of the textarea and the command. *)
Definition formatText (content : jsstring) (start end_ : nat)
           (format : string) (value : option jsstring) : jsstring * nat :=
  let selectedText := substring content start end_ in
  if String.eqb format "bold" then
    if truthy selectedText then
      (substring content 0 start ++ (lit "**" ++ selectedText ++ lit "**")
         ++ substring_from content end_,
       end_ + 4)
    else
      (substring content 0 start ++ lit "****" ++ substring_from content end_,
       start + 2)
  else if String.eqb format "italic" then
    if truthy selectedText then
      (substring content 0 start ++ (lit "*" ++ selectedText ++ lit "*")
         ++ substring_from content end_,
       end_ + 2)
    else
      (substring content 0 start ++ lit "**" ++ substring_from content end_,
       start + 1)
  else if String.eqb format "hashtag" then
    let hashtag := or_else selectedText (lit "hashtag") in
    (substring content 0 start ++ (lit "#" ++ hashtag)
       ++ substring_from content end_,
     start + length hashtag + 1)
  else if String.eqb format "mention" then
    let mention := or_else selectedText (lit "username") in
    (substring content 0 start ++ (lit "@" ++ mention)
       ++ substring_from content end_,
     start + length mention + 1)
  else if String.eqb format "insert" then
    match value with
    | Some (c :: v) =>
        (substring content 0 start ++ (c :: v) ++ substring_from content end_,
         start + length (c :: v))
    | _ => (content, start)
    end
  else (content, start).

(** *** Style suggestions: the [switch] of [handleApplyStyleSuggestion]

    The buffer handed to [handleContentChange]. *)
Definition applyStyleSuggestion (content : jsstring) (s : StyleSuggestion)
  : jsstring :=
  if String.eqb (type s) "emphasis" then
    replace content (original s) (suggestion s)
  else if String.eqb (type s) "hashtag" || String.eqb (type s) "emoji"
          || String.eqb (type s) "mention" then
    let spacing :=
      if endsWith (trim content) (lit ".") || endsWith (trim content) (lit "!")
         || endsWith (trim content) (lit "?")
      then lit " " else lit " " in
    trim content ++ spacing ++ suggestion s
  else if String.eqb (type s) "structure" then
    suggestion s
  else if truthy (original s) && includes content (original s) then
    replace content (original s) (suggestion s)
  else
    trim content ++ lit " " ++ suggestion s.

(** *** State *)

(** The selection of the textarea the ref points to. *)
Record Textarea := { selectionStart : nat; selectionEnd : nat }.

(** The part of the application store the component reads
    ([slides], [currentSlide], [isAutoSaving], [lastSaved]) and its own
    state ([content], [currentSlideIndex], the textarea ref), with the
    [projectId] prop. *)
Record State := {
  projectId : Id;
  slides : list Slide;
  currentSlide : option Slide;
  isAutoSaving : bool;
  lastSaved : option Timestamp;
  content : jsstring;
  currentSlideIndex : Z;
  textarea : option Textarea
}.

(** What leaves the component: requests and console output. *)
Inductive Event :=
| fetch_POST_slides (project : Id) (body : Server.Body)
| fetch_PUT_slide (slide : Id) (content : jsstring) (tone : option jsstring)
| fetch_DELETE_slide (slide : Id)
| console_error (msg : string).

Record World := {
  editor : State;
  db : Server.Db;
  trace : list Event
}.

(** *** What the environment decides during one handler *)

(** The fate of a [fetch]: the promise resolves, or it rejects because
    the request never left, or it rejects after the server handled the
    request. *)
Inductive Link := delivered | unreachable | response_lost.

Record Env := {
  now : Timestamp;            (* first reading of the clock *)
  later : Timestamp;          (* a further reading *)
  generateId : Id;            (* result of [generateId()] *)
  link : Link;
  session : option Id;        (* the session sent along with a request *)
  storage : Server.Storage
}.

(** *** The application store *)

(** Modelled from the spec: the store ([@/lib/store]) is not among the
    sources.  [addSlide] appends the slide to the sequence; likewise
    [updateSlide] replaces the in-memory state of the slide with the
    given id, [deleteSlide] removes the slide with the given id, and
    the setters assign their field. *)
Definition addSlide (slide : Slide) (l : list Slide) : list Slide :=
  l ++ [slide].

(** Modelled from the spec: the store is not among the sources; the
    slide with the given id takes the updated state, the others stay. *)
Definition updateSlide (id : Id) (updates : Slide) (l : list Slide)
  : list Slide :=
  map (fun s => if String.eqb (Slide.id s) id then updates else s) l.

(** Modelled from the spec: the store is not among the sources; the
    slide with the given id is removed from the sequence. *)
Definition deleteSlide (id : Id) (l : list Slide) : list Slide :=
  filter (fun s => negb (String.eqb (Slide.id s) id)) l.

(** *** Field updates *)

Definition with_slides (l : list Slide) (e : State) : State :=
  {| projectId := projectId e; slides := l; currentSlide := currentSlide e;
     isAutoSaving := isAutoSaving e; lastSaved := lastSaved e;
     content := content e; currentSlideIndex := currentSlideIndex e;
     textarea := textarea e |}.

Definition setCurrentSlide (c : option Slide) (e : State) : State :=
  {| projectId := projectId e; slides := slides e; currentSlide := c;
     isAutoSaving := isAutoSaving e; lastSaved := lastSaved e;
     content := content e; currentSlideIndex := currentSlideIndex e;
     textarea := textarea e |}.

Definition setAutoSaving (b : bool) (e : State) : State :=
  {| projectId := projectId e; slides := slides e;
     currentSlide := currentSlide e;
     isAutoSaving := b; lastSaved := lastSaved e;
     content := content e; currentSlideIndex := currentSlideIndex e;
     textarea := textarea e |}.

Definition setLastSaved (t : Timestamp) (e : State) : State :=
  {| projectId := projectId e; slides := slides e;
     currentSlide := currentSlide e;
     isAutoSaving := isAutoSaving e; lastSaved := Some t;
     content := content e; currentSlideIndex := currentSlideIndex e;
     textarea := textarea e |}.

Definition setContent (v : jsstring) (e : State) : State :=
  {| projectId := projectId e; slides := slides e;
     currentSlide := currentSlide e;
     isAutoSaving := isAutoSaving e; lastSaved := lastSaved e;
     content := v; currentSlideIndex := currentSlideIndex e;
     textarea := textarea e |}.

Definition setCurrentSlideIndex (i : Z) (e : State) : State :=
  {| projectId := projectId e; slides := slides e;
     currentSlide := currentSlide e;
     isAutoSaving := isAutoSaving e; lastSaved := lastSaved e;
     content := content e; currentSlideIndex := i;
     textarea := textarea e |}.

(** [textarea.setSelectionRange(p, p)]: the platform clamps the offsets
    to the length of the value. *)
Definition setSelectionRange (p : nat) (e : State) : State :=
  {| projectId := projectId e; slides := slides e;
     currentSlide := currentSlide e;
     isAutoSaving := isAutoSaving e; lastSaved := lastSaved e;
     content := content e; currentSlideIndex := currentSlideIndex e;
     textarea :=
       match textarea e with
       | Some _ =>
           let p' := Nat.min p (length (content e)) in
           Some {| selectionStart := p'; selectionEnd := p' |}
       | None => None
       end |}.

Definition with_editor (e : State) (w : World) : World :=
  {| editor := e; db := db w; trace := trace w |}.

Definition with_db (d : Server.Db) (w : World) : World :=
  {| editor := editor w; db := d; trace := trace w |}.

Definition emit (ev : Event) (w : World) : World :=
  {| editor := editor w; db := db w; trace := trace w ++ [ev] |}.

Definition update (f : State -> State) (w : World) : World :=
  with_editor (f (editor w)) w.

(** [slides[i]]: [undefined] outside the array. *)
Definition at_index (l : list Slide) (i : Z) : option Slide :=
  if (i <? 0)%Z then None else nth_error l (Z.to_nat i).


(** *** Handlers *)

(** [{ ...currentSlide, content: value, char_count: value.length,
       updated_at: new Date().toISOString() }] *)
Definition updatedSlide (cs : Slide) (value : jsstring) (t : Timestamp)
  : Slide :=
  {| Slide.id := Slide.id cs;
     Slide.project_id := Slide.project_id cs;
     Slide.slide_number := Slide.slide_number cs;
     Slide.content := value;
     Slide.title := Slide.title cs;
     Slide.tone := Slide.tone cs;
     Slide.char_count := length value;
     Slide.created_at := Slide.created_at cs;
     Slide.updated_at := t |}.

(** [handleContentChange(value)] *)
Definition handleContentChange (env : Env) (value : jsstring) (w : World)
  : World :=
  let w := update (setContent value) w in
  match currentSlide (editor w) with
  | None => w
  | Some cs =>
      let w := update (fun e => with_slides
                         (updateSlide (Slide.id cs)
                                      (updatedSlide cs value (now env))
                                      (slides e)) e)
                      w in
      let w := update (setAutoSaving true) w in
      let w := emit (fetch_PUT_slide (Slide.id cs) value (Slide.tone cs)) w in
      let w :=
        match link env with
        | delivered => update (setLastSaved (later env)) w
        | _ => emit (console_error "Auto-save failed:") w
        end in
      update (setAutoSaving false) w
  end.

(** [handleFormatText(format, value)], with the deferred restoration of
    the caret. *)
Definition handleFormatText (env : Env) (format : string)
           (value : option jsstring) (w : World) : World :=
  match textarea (editor w) with
  | None => w
  | Some ta =>
      let '(newContent, newCursorPos) :=
        formatText (content (editor w)) (selectionStart ta) (selectionEnd ta)
                   format value in
      let w := handleContentChange env newContent w in
      update (setSelectionRange newCursorPos) w
  end.

(** [handleApplyStyleSuggestion(suggestion)] *)
Definition handleApplyStyleSuggestion (env : Env) (s : StyleSuggestion)
           (w : World) : World :=
  match textarea (editor w) with
  | None => w
  | Some _ =>
      handleContentChange env (applyStyleSuggestion (content (editor w)) s) w
  end.

(** The body [addNewSlide] sends:
    [{ slide_number: slides.length + 1, content: "" }]. *)
Definition add_body (e : State) : Server.Body :=
  {| Server.slide_number := Some (length (slides e) + 1);
     Server.content := Some (Server.JString []);
     Server.title := None;
     Server.tone := None |}.

(** The request as the endpoint receives it. *)
Definition add_request (env : Env) (e : State) : Server.Request :=
  {| Server.session := session env;
     Server.params_id := projectId e;
     Server.json := Some (add_body e) |}.

(** The [if (response.ok)] block of [addNewSlide]; [e0] is the state the
    handler was called in, whose [slides] the closure refers to.  An ok
    answer of the endpoint always carries a slide. *)
Definition add_response (e0 : State) (r : Server.Response) (w : World)
  : World :=
  if Server.ok r then
    match Server.payload r with
    | Server.slide_payload slide =>
        let w := update (fun e => with_slides (addSlide slide (slides e)) e) w in
        update (setCurrentSlideIndex (Z.of_nat (length (slides e0)))) w
    | Server.error_payload _ => w
    end
  else w.

(** [addNewSlide()] *)
Definition addNewSlide (env : Env) (w : World) : World :=
  let e0 := editor w in
  let req := add_request env e0 in
  let w := emit (fetch_POST_slides (projectId e0) (add_body e0)) w in
  match link env with
  | unreachable => emit (console_error "Error creating slide:") w
  | response_lost =>
      let '(db', _) := Server.POST (db w) (storage env) req in
      emit (console_error "Error creating slide:") (with_db db' w)
  | delivered =>
      let '(db', response) := Server.POST (db w) (storage env) req in
      add_response e0 response (with_db db' w)
  end.

(** [{ ...currentSlide, id: generateId(), slide_number: slides.length + 1,
       created_at: ..., updated_at: ... }] *)
Definition duplicatedSlide (cs : Slide) (env : Env) (n : nat) : Slide :=
  {| Slide.id := generateId env;
     Slide.project_id := Slide.project_id cs;
     Slide.slide_number := n + 1;
     Slide.content := Slide.content cs;
     Slide.title := Slide.title cs;
     Slide.tone := Slide.tone cs;
     Slide.char_count := Slide.char_count cs;
     Slide.created_at := now env;
     Slide.updated_at := later env |}.

(** [duplicateSlide()] *)
Definition duplicateSlide (env : Env) (w : World) : World :=
  match currentSlide (editor w) with
  | None => w
  | Some cs =>
      let n := length (slides (editor w)) in
      let w := update (fun e => with_slides
                         (addSlide (duplicatedSlide cs env n) (slides e)) e)
                      w in
      update (setCurrentSlideIndex (Z.of_nat n)) w
  end.

(** [deleteCurrentSlide()] *)
Definition deleteCurrentSlide (env : Env) (w : World) : World :=
  match currentSlide (editor w) with
  | None => w
  | Some cs =>
      if 1 <? length (slides (editor w)) then
        let i := currentSlideIndex (editor w) in
        let w := emit (fetch_DELETE_slide (Slide.id cs)) w in
        let w :=
          match link env with
          | delivered => w
          | _ => emit (console_error "Error deleting slide:") w
          end in
        let w := update (fun e => with_slides
                           (deleteSlide (Slide.id cs) (slides e)) e) w in
        let newIndex := Z.max 0 (i - 1) in
        update (setCurrentSlideIndex newIndex) w
      else w
  end.

(** *** Effects *)

(** The effect on [currentSlideIndex] and [slides]. *)
Definition effect_currentSlide (w : World) : World :=
  let e := editor w in
  if (0 <? length (slides e))
     && (currentSlideIndex e <? Z.of_nat (length (slides e)))%Z
  then update (setCurrentSlide (at_index (slides e) (currentSlideIndex e))) w
  else w.

(** The effect on [currentSlide]. *)
Definition effect_content (w : World) : World :=
  match currentSlide (editor w) with
  | Some cs => update (setContent (Slide.content cs)) w
  | None => w
  end.

(** *** Toolbar buttons: a disabled button ignores the click *)

Definition add_disabled (e : State) : bool := 10 <=? length (slides e).

Definition duplicate_disabled (e : State) : bool :=
  match currentSlide e with
  | None => true
  | Some _ => 10 <=? length (slides e)
  end.

Definition delete_disabled (e : State) : bool :=
  match currentSlide e with
  | None => true
  | Some _ => length (slides e) <=? 1
  end.

Definition clickAdd (env : Env) (w : World) : World :=
  if add_disabled (editor w) then w else addNewSlide env w.

Definition clickDuplicate (env : Env) (w : World) : World :=
  if duplicate_disabled (editor w) then w else duplicateSlide env w.

Definition clickDelete (env : Env) (w : World) : World :=
  if delete_disabled (editor w) then w else deleteCurrentSlide env w.

Definition clickPrevious (w : World) : World :=
  if (currentSlideIndex (editor w) =? 0)%Z then w
  else update (setCurrentSlideIndex
                 (Z.max 0 (currentSlideIndex (editor w) - 1))) w.

Definition clickNext (w : World) : World :=
  let n := Z.of_nat (length (slides (editor w))) in
  if (currentSlideIndex (editor w) =? n - 1)%Z then w
  else update (setCurrentSlideIndex
                 (Z.min (n - 1) (currentSlideIndex (editor w) + 1))) w.

(** *** Events of the component *)

Inductive Action :=
| Add
| Duplicate
| Delete
| Previous
| Next
| Typing (value : jsstring) (caret : nat)
| Select (start end_ : nat)
| Format (format : string) (value : option jsstring)
| Apply (s : StyleSuggestion)
| RunEffectCurrentSlide
| RunEffectContent.

(** The selection of the textarea after the user moved it or typed;
    the platform keeps it within the value. *)
Definition select (start end_ : nat) (e : State) : State :=
  {| projectId := projectId e; slides := slides e;
     currentSlide := currentSlide e;
     isAutoSaving := isAutoSaving e; lastSaved := lastSaved e;
     content := content e; currentSlideIndex := currentSlideIndex e;
     textarea :=
       match textarea e with
       | Some _ =>
           let n := length (content e) in
           Some {| selectionStart := Nat.min (Nat.min start end_) n;
                   selectionEnd := Nat.min (Nat.max start end_) n |}
       | None => None
       end |}.

Definition step (w : World) (ev : Env * Action) : World :=
  let (env, a) := ev in
  match a with
  | Add => clickAdd env w
  | Duplicate => clickDuplicate env w
  | Delete => clickDelete env w
  | Previous => clickPrevious w
  | Next => clickNext w
  | Typing value caret =>
      update (select caret caret) (handleContentChange env value w)
  | Select s e => update (select s e) w
  | Format format value => handleFormatText env format value w
  | Apply s => handleApplyStyleSuggestion env s w
  | RunEffectCurrentSlide => effect_currentSlide w
  | RunEffectContent => effect_content w
  end.

(** A sequence of events, each with what the environment decides while
    it is handled.  [step] runs a handler to its end, so [run] is the
    serial schedule, in which every request is answered before the next
    event is handled; [Async] has the other schedules. *)
Definition run (w : World) (evs : list (Env * Action)) : World :=
  fold_left step evs w.

End Editor.

(* ================================================================== *)
(** ** The handlers around their [await] *)
(* ================================================================== *)

Module Async.

Import Editor.

(** What is left to run of a handler once its promise settles, with the
    values its closure holds: the outcome of the request, and for
    [addNewSlide] the state it was called in, for [deleteCurrentSlide]
    the current slide and the index it read; likewise the deferred
    restoration of the caret. *)
Inductive Pending :=
| add_pending (env : Env) (e0 : State)
| delete_pending (env : Env) (cs : Slide) (i : Z)
| save_pending (env : Env)
| caret_pending (p : nat).

(** The editor with the promises and timers that are outstanding. *)
Record Running := {
  world : World;
  inflight : list Pending
}.

(** [addNewSlide] up to its [await]: the request is sent. *)
Definition addNewSlide_start (env : Env) (w : World) : World * list Pending :=
  (emit (fetch_POST_slides (projectId (editor w)) (add_body (editor w))) w,
   [add_pending env (editor w)]).

(** [addNewSlide] after its [await]; the endpoint is taken to handle
    the request at the moment the promise settles. *)
Definition addNewSlide_settle (env : Env) (e0 : State) (w : World) : World :=
  match link env with
  | unreachable => emit (console_error "Error creating slide:") w
  | response_lost =>
      let '(db', _) := Server.POST (db w) (storage env) (add_request env e0) in
      emit (console_error "Error creating slide:") (with_db db' w)
  | delivered =>
      let '(db', response) :=
        Server.POST (db w) (storage env) (add_request env e0) in
      add_response e0 response (with_db db' w)
  end.

(** [deleteCurrentSlide] up to its [await]: the guard is read and the
    request is sent. *)
Definition deleteCurrentSlide_start (env : Env) (w : World)
  : World * list Pending :=
  match currentSlide (editor w) with
  | None => (w, [])
  | Some cs =>
      if 1 <? length (slides (editor w)) then
        (emit (fetch_DELETE_slide (Slide.id cs)) w,
         [delete_pending env cs (currentSlideIndex (editor w))])
      else (w, [])
  end.

(** [deleteCurrentSlide] after its [await]. *)
Definition deleteCurrentSlide_settle (env : Env) (cs : Slide) (i : Z)
           (w : World) : World :=
  let w :=
    match link env with
    | delivered => w
    | _ => emit (console_error "Error deleting slide:") w
    end in
  let w := update (fun e => with_slides
                     (deleteSlide (Slide.id cs) (slides e)) e) w in
  let newIndex := Z.max 0 (i - 1) in
  update (setCurrentSlideIndex newIndex) w.

(** [handleContentChange] up to its [await]. *)
Definition handleContentChange_start (env : Env) (value : jsstring)
           (w : World) : World * list Pending :=
  let w := update (setContent value) w in
  match currentSlide (editor w) with
  | None => (w, [])
  | Some cs =>
      let w := update (fun e => with_slides
                         (updateSlide (Slide.id cs)
                                      (updatedSlide cs value (now env))
                                      (slides e)) e)
                      w in
      let w := update (setAutoSaving true) w in
      let w := emit (fetch_PUT_slide (Slide.id cs) value (Slide.tone cs)) w in
      (w, [save_pending env])
  end.

(** [handleContentChange] after its [await]. *)
Definition handleContentChange_settle (env : Env) (w : World) : World :=
  let w :=
    match link env with
    | delivered => update (setLastSaved (later env)) w
    | _ => emit (console_error "Auto-save failed:") w
    end in
  update (setAutoSaving false) w.

(** [handleFormatText]: the content change starts and the restoration
    of the caret is deferred. *)
Definition handleFormatText_start (env : Env) (format : string)
           (value : option jsstring) (w : World) : World * list Pending :=
  match textarea (editor w) with
  | None => (w, [])
  | Some ta =>
      let '(newContent, newCursorPos) :=
        formatText (content (editor w)) (selectionStart ta) (selectionEnd ta)
                   format value in
      let '(w, saving) := handleContentChange_start env newContent w in
      (w, saving ++ [caret_pending newCursorPos])
  end.

Definition handleApplyStyleSuggestion_start (env : Env) (s : StyleSuggestion)
           (w : World) : World * list Pending :=
  match textarea (editor w) with
  | None => (w, [])
  | Some _ =>
      handleContentChange_start
        env (applyStyleSuggestion (content (editor w)) s) w
  end.

(** What an event does at once, and what it leaves outstanding.  The
    buttons read their [disabled] prop at the click. *)
Definition start (env : Env) (a : Action) (w : World) : World * list Pending :=
  match a with
  | Add =>
      if add_disabled (editor w) then (w, []) else addNewSlide_start env w
  | Duplicate => (clickDuplicate env w, [])
  | Delete =>
      if delete_disabled (editor w) then (w, [])
      else deleteCurrentSlide_start env w
  | Previous => (clickPrevious w, [])
  | Next => (clickNext w, [])
  | Typing value caret =>
      let '(w, saving) := handleContentChange_start env value w in
      (update (select caret caret) w, saving)
  | Select s e => (update (select s e) w, [])
  | Format format value => handleFormatText_start env format value w
  | Apply s => handleApplyStyleSuggestion_start env s w
  | RunEffectCurrentSlide => (effect_currentSlide w, [])
  | RunEffectContent => (effect_content w, [])
  end.

(** What runs when a promise settles or a timer fires. *)
Definition settle (p : Pending) (w : World) : World :=
  match p with
  | add_pending env e0 => addNewSlide_settle env e0 w
  | delete_pending env cs i => deleteCurrentSlide_settle env cs i w
  | save_pending env => handleContentChange_settle env w
  | caret_pending p => update (setSelectionRange p) w
  end.

(** The list without its element at position [k]. *)
Fixpoint drop_nth {A : Type} (k : nat) (l : list A) : list A :=
  match l, k with
  | [], _ => []
  | _ :: l', 0 => l'
  | x :: l', S k' => x :: drop_nth k' l'
  end.

(** What happens next: an event of the component, or the settling of the
    outstanding promise at position [k]. *)
Inductive Occurrence :=
| Do (env : Env) (a : Action)
| Settle (k : nat).

Definition step (r : Running) (o : Occurrence) : Running :=
  match o with
  | Do env a =>
      let '(w, ps) := start env a (world r) in
      {| world := w; inflight := inflight r ++ ps |}
  | Settle k =>
      match nth_error (inflight r) k with
      | None => r
      | Some p =>
          {| world := settle p (world r); inflight := drop_nth k (inflight r) |}
      end
  end.

(** Any schedule of events and settlings. *)
Definition run (r : Running) (os : list Occurrence) : Running :=
  fold_left step os r.

(** The editor with nothing outstanding. *)
Definition idle (w : World) : Running := {| world := w; inflight := [] |}.

(** An event whose promises all settle before anything else happens. *)
Definition serve (env : Env) (a : Action) (w : World) : World :=
  let '(w, ps) := start env a w in
  fold_left (fun w p => settle p w) ps w.

(** The serial schedule: every event is served before the next. *)
Definition run_served (w : World) (evs : list (Env * Action)) : World :=
  fold_left (fun w ev => serve (fst ev) (snd ev) w) evs w.

End Async.

(* ================================================================== *)
(** ** Vocabulary of the properties *)
(* ================================================================== *)

(** The code units of [B] from position [a] up to, not including, [b]. *)
Definition slice (B : jsstring) (a b : nat) : jsstring :=
  firstn (b - a) (skipn a B).

(** The buffer with the text between [start] and [end_] replaced: the text
    before the selection, the inserted text, the text after the
    selection. *)
Definition spliced (B : jsstring) (start end_ : nat) (inserted : jsstring)
  : jsstring :=
  firstn start B ++ inserted ++ skipn end_ B.

(** [remove_from i ps l] drops from [l], whose first element has
    position [i], the elements whose position is listed in [ps]. *)
Fixpoint remove_from {A : Type} (i : nat) (ps : list nat) (l : list A)
  : list A :=
  match l with
  | [] => []
  | x :: l' =>
      if existsb (Nat.eqb i) ps then remove_from (S i) ps l'
      else x :: remove_from (S i) ps l'
  end.

(** The list without the elements at the positions [ps]. *)
Definition remove_positions {A : Type} (ps : list nat) (l : list A) : list A :=
  remove_from 0 ps l.

(** Every slide the editor holds, the current slide included, counts
    the content it carries. *)
Definition editor_counted (e : Editor.State) : Prop :=
  Forall Slide.counted (Editor.slides e)
  /\ forall cs, Editor.currentSlide e = Some cs -> Slide.counted cs.

(** The store's current slide is the slide at the active index, which is
    what the effect on [currentSlideIndex] and [slides] establishes. *)
Definition settled (e : Editor.State) : Prop :=
  Editor.currentSlide e
  = Editor.at_index (Editor.slides e) (Editor.currentSlideIndex e).


(** What the create-slide endpoint answers to the request of
    [addNewSlide]. *)
Definition add_answer (env : Editor.Env) (w : Editor.World) : Server.Response :=
  snd (Server.POST (Editor.db w) (Editor.storage env)
                   (Editor.add_request env (Editor.editor w))).

(** The creation request came back and was successful. *)
Definition add_succeeds (env : Editor.Env) (w : Editor.World) : Prop :=
  Editor.link env = Editor.delivered /\ Server.ok (add_answer env w) = true.

(* ================================================================== *)
(** ** A sample project *)
(* ================================================================== *)

Module Sample.

Import Editor.

Definition slide (n : nat) (id : Id) (text : string) : Slide :=
  {| Slide.id := id;
     Slide.project_id := "p1";
     Slide.slide_number := n;
     Slide.content := lit text;
     Slide.title := None;
     Slide.tone := None;
     Slide.char_count := length (lit text);
     Slide.created_at := "2025-06-01T10:00:00.000Z";
     Slide.updated_at := "2025-06-01T10:00:00.000Z" |}.

Definition first : Slide := slide 1 "s1" "Hello".
Definition second : Slide := slide 2 "s2" "World".

(** Alice owns project [p1], Bob owns project [p2]. *)
Definition store : Server.Db :=
  {| Server.carousel_projects :=
       [ {| Server.id := "p1"; Server.user_id := "alice" |};
         {| Server.id := "p2"; Server.user_id := "bob" |} ];
     Server.slides := [first; second] |}.

(** The editor open on project [p1], on its second slide. *)
Definition state : State :=
  {| projectId := "p1";
     slides := [first; second];
     currentSlide := Some second;
     isAutoSaving := false;
     lastSaved := None;
     content := lit "World";
     currentSlideIndex := 1;
     textarea := Some {| selectionStart := 0; selectionEnd := 0 |} |}.

Definition world : World :=
  {| editor := state; db := store; trace := [] |}.

Definition healthy : Server.Storage :=
  {| Server.select_error := false;
     Server.insert_error := false;
     Server.generated_id := "s3";
     Server.generated_at := "2025-06-01T10:05:00.000Z";
     Server.default_char_count := 0;
     Server.cast_text := fun _ => lit "5" |}.

(** Alice is signed in and the network delivers. *)
Definition env : Env :=
  {| now := "2025-06-01T10:05:00.000Z";
     later := "2025-06-01T10:05:00.250Z";
     generateId := "s4";
     link := delivered;
     session := Some "alice"%string;
     storage := healthy |}.

(** The same, with the server out of reach. *)
Definition offline : Env :=
  {| now := now env; later := later env; generateId := generateId env;
     link := unreachable; session := session env; storage := storage env |}.

(** A project that has reached ten slides. *)
Definition full : World :=
  {| editor :=
       {| projectId := "p1";
          slides := repeat first 10;
          currentSlide := Some first;
          isAutoSaving := false;
          lastSaved := None;
          content := lit "Hello";
          currentSlideIndex := 0;
          textarea := Some {| selectionStart := 0; selectionEnd := 0 |} |};
     db := store;
     trace := [] |}.

(** A project with a single slide. *)
Definition single : World :=
  {| editor :=
       {| projectId := "p1";
          slides := [first];
          currentSlide := Some first;
          isAutoSaving := false;
          lastSaved := None;
          content := lit "Hello";
          currentSlideIndex := 0;
          textarea := Some {| selectionStart := 0; selectionEnd := 0 |} |};
     db := store;
     trace := [] |}.

(** A request of Bob, who does not own [p1], with a body that is not
    JSON. *)
Definition garbled : Server.Request :=
  {| Server.session := Some "bob"%string;
     Server.params_id := "p1";
     Server.json := None |}.

(** A well-formed request of Bob for Alice's project. *)
Definition intruding : Server.Request :=
  {| Server.session := Some "bob"%string;
     Server.params_id := "p1";
     Server.json :=
       Some {| Server.slide_number := Some 3;
               Server.content := Some (Server.JString (lit "Hi"));
               Server.title := None;
               Server.tone := None |} |}.

(** An emphasis suggestion with no [original] and dollar signs in its
    text. *)
Definition dollars : StyleSuggestion :=
  {| type := "emphasis"; original := []; suggestion := lit "Save $$ " |}.

End Sample.

(* ================================================================== *)
(** ** The project endpoint: [GET], [PUT], [DELETE /api/projects/[id]] *)
(* ================================================================== *)

Module Projects.

(** A row of [brand_voice_templates], with the columns the handler
    selects. *)
Module Template.
Record t := make { id : Id; name : jsstring; voice_profile : jsstring }.
End Template.

(** A row of [documents], with the columns the handler selects. *)
Module Document.
Record t := make { id : Id; title : jsstring; file_name : jsstring }.
End Document.

(** The columns of a slide the handler selects:
    [id, slide_number, content, char_count, tone, created_at, updated_at]. *)
Module Columns.
Record t := make {
  id : Id;
  slide_number : nat;
  content : jsstring;
  char_count : nat;
  tone : option jsstring;
  created_at : Timestamp;
  updated_at : Timestamp
}.

Definition of_slide (s : Slide) : t :=
  {| id := Slide.id s;
     slide_number := Slide.slide_number s;
     content := Slide.content s;
     char_count := Slide.char_count s;
     tone := Slide.tone s;
     created_at := Slide.created_at s;
     updated_at := Slide.updated_at s |}.
End Columns.

(** The fields of the body [PUT] destructures; an absent field is
    [None]. *)
Module Patch.
Record t := make {
  title : option jsstring;
  description : option jsstring;
  template_id : option Id;
  document_id : option Id;
  target_audience : option jsstring
}.
End Patch.

(** A row of [carousel_projects], with the columns the handlers name. *)
Record Project := {
  id : Id;
  user_id : Id;
  title : jsstring;
  description : option jsstring;
  template_id : option Id;
  document_id : option Id;
  target_audience : option jsstring
}.

Record Db := {
  carousel_projects : list Project;
  slides : list Slide;
  brand_voice_templates : list Template.t;
  documents : list Document.t
}.

(** The queries the storage service fails during one request. *)
Record Faults := {
  relationship_error : bool;   (* the query with nested relations *)
  project_error : bool;        (* the basic project query *)
  slides_error : bool;
  template_error : bool;
  document_error : bool;
  update_error : bool;
  delete_error : bool
}.

Record Request := {
  session : option Id;
  params_id : Id;
  json : option Patch.t
}.

(** [{ ...project, slides, brand_voice_templates, documents }] *)
Record View := {
  project : Project;
  view_slides : list Columns.t;
  view_template : option Template.t;
  view_document : option Document.t
}.

Inductive Payload :=
| view_payload (project : View)
| project_payload (project : Project)
| success_payload
| error_payload (error : string).

Record Response := { status : nat; payload : Payload }.

(** [NextResponse.json(body)] and [NextResponse.json(body, { status })]. *)
Definition json_ok (p : Payload) : Response :=
  {| status := 200; payload := p |}.
Definition json_error (msg : string) (st : nat) : Response :=
  {| status := st; payload := error_payload msg |}.

(** Modelled from the spec: [requireAuth] of [@/lib/auth] is not among
    the sources.  It yields the id of the authenticated user and raises
    the authentication error when there is no valid session. *)
Definition requireAuth (req : Request) : Server.Try Id :=
  match session req with
  | Some userId => Server.ret userId
  | None => Server.throw Server.AuthenticationRequired
  end.

(** [await request.json()] followed by the destructuring of the body. *)
Definition request_json (req : Request) : Server.Try Patch.t :=
  match json req with
  | Some body => Server.ret body
  | None => Server.throw Server.OtherError
  end.

(** The [catch] block shared by the three handlers. *)
Definition catch {A} (db : A) (r : Server.Try (A * Response)) : A * Response :=
  match r with
  | inl result => result
  | inr Server.AuthenticationRequired =>
      (db, json_error "Authentication required" 401)
  | inr Server.OtherError => (db, json_error "Internal server error" 500)
  end.

(** [.eq("id", id).eq("user_id", userId)] *)
Definition matches (id userId : Id) (p : Project) : bool :=
  String.eqb (Projects.id p) id && String.eqb (user_id p) userId.

(** [from("carousel_projects")...eq("id", id).eq("user_id", userId)
     .single()] *)
Definition project_of (db : Db) (id userId : Id) : option Project :=
  Server.single (filter (matches id userId) (carousel_projects db)).

(** The slides of a project, in table order, with the selected
    columns. *)
Definition slides_of (db : Db) (project : Id) : list Columns.t :=
  map Columns.of_slide
      (filter (fun s => String.eqb (Slide.project_id s) project) (slides db)).

(** [from("brand_voice_templates")...eq("id", template_id).single()];
    no row has a [null] id. *)
Definition template_of (db : Db) (template : option Id) : option Template.t :=
  match template with
  | None => None
  | Some i =>
      Server.single (filter (fun t => String.eqb (Template.id t) i)
                            (brand_voice_templates db))
  end.

(** [from("documents")...eq("id", document_id).single()] *)
Definition document_of (db : Db) (document : option Id) : option Document.t :=
  match document with
  | None => None
  | Some i =>
      Server.single (filter (fun d => String.eqb (Document.id d) i)
                            (documents db))
  end.

(** [slides.sort((a, b) => a.slide_number - b.slide_number)]: ascending
    and stable. *)
Fixpoint insert (x : Columns.t) (l : list Columns.t) : list Columns.t :=
  match l with
  | [] => [x]
  | y :: l' =>
      if Columns.slide_number x <=? Columns.slide_number y then x :: l
      else y :: insert x l'
  end.

Definition sort (l : list Columns.t) : list Columns.t :=
  fold_right insert [] l.

(** [.order("slide_number")]: the storage service sorts ascending; rows
    with equal numbers are taken in table order. *)
Definition order (l : list Columns.t) : list Columns.t := sort l.

(** The body of the [try] block of [GET]. *)
Definition GET_try (db : Db) (f : Faults) (req : Request)
  : Server.Try (Db * Response) :=
  let id := params_id req in
  Server.bind (requireAuth req) (fun userId =>
   match (if relationship_error f then None else project_of db id userId) with
   | Some p =>
       Server.ret
         (db, json_ok (view_payload
                      {| project := p;
                         view_slides := sort (slides_of db (Projects.id p));
                         view_template := template_of db (template_id p);
                         view_document := document_of db (document_id p) |}))
   | None =>
       match (if project_error f then None else project_of db id userId) with
       | None => Server.ret (db, json_error "Project not found" 404)
       | Some basicProject =>
           let slides :=
             if slides_error f then []
             else order (slides_of db (Projects.id basicProject)) in
           let template :=
             if template_error f then None
             else template_of db (template_id basicProject) in
           let document :=
             if document_error f then None
             else document_of db (document_id basicProject) in
           Server.ret
             (db, json_ok (view_payload
                          {| project := basicProject;
                             view_slides := sort slides;
                             view_template := template;
                             view_document := document |}))
       end
   end).

Definition GET (db : Db) (f : Faults) (req : Request) : Db * Response :=
  catch db (GET_try db f req).

(** [x || null] for an identifier. *)
Definition id_or_null (x : option Id) : option Id :=
  match x with
  | Some i => if String.eqb i "" then None else Some i
  | None => None
  end.

(** The row after [update({ title, description: description || null,
    ... })]; a [title] that is [undefined] is not part of the request
    sent to the storage service and leaves the column as it is. *)
Definition patched (b : Patch.t) (p : Project) : Project :=
  {| id := Projects.id p;
     user_id := user_id p;
     title := match Patch.title b with Some t => t | None => title p end;
     description := Server.string_or_null (Patch.description b);
     template_id := id_or_null (Patch.template_id b);
     document_id := id_or_null (Patch.document_id b);
     target_audience := Server.string_or_null (Patch.target_audience b) |}.

Definition with_projects (l : list Project) (db : Db) : Db :=
  {| carousel_projects := l; slides := slides db;
     brand_voice_templates := brand_voice_templates db;
     documents := documents db |}.

(** The body of the [try] block of [PUT]; [update(...).select().single()]
    takes effect when exactly one row matches and is an error
    otherwise. *)
Definition PUT_try (db : Db) (f : Faults) (req : Request)
  : Server.Try (Db * Response) :=
  let id := params_id req in
  Server.bind (requireAuth req) (fun userId =>
  Server.bind (request_json req) (fun body =>
   match (if update_error f then None else project_of db id userId) with
   | None => Server.ret (db, json_error "Failed to update project" 500)
   | Some p =>
       Server.ret
         (with_projects
            (map (fun q => if matches id userId q then patched body q else q)
                 (carousel_projects db)) db,
          json_ok (project_payload (patched body p)))
   end)).

Definition PUT (db : Db) (f : Faults) (req : Request) : Db * Response :=
  catch db (PUT_try db f req).

(** The body of the [try] block of [DELETE]; the rows of other tables
    that refer to a deleted project are the storage service's
    business. *)
Definition DELETE_try (db : Db) (f : Faults) (req : Request)
  : Server.Try (Db * Response) :=
  let id := params_id req in
  Server.bind (requireAuth req) (fun userId =>
   if delete_error f then
     Server.ret (db, json_error "Failed to delete project" 500)
   else
     Server.ret
       (with_projects
          (filter (fun q => negb (matches id userId q)) (carousel_projects db))
          db,
        json_ok success_payload)).

Definition DELETE (db : Db) (f : Faults) (req : Request) : Db * Response :=
  catch db (DELETE_try db f req).

(** No query fails. *)
Definition healthy : Faults :=
  {| relationship_error := false; project_error := false;
     slides_error := false; template_error := false;
     document_error := false; update_error := false;
     delete_error := false |}.

(** Only the query with nested relations fails. *)
Definition no_relationships : Faults :=
  {| relationship_error := true; project_error := false;
     slides_error := false; template_error := false;
     document_error := false; update_error := false;
     delete_error := false |}.

(** The order of the slides of a view. *)
Definition by_number (a b : Columns.t) : Prop :=
  Columns.slide_number a <= Columns.slide_number b.

(** The caller of [req] owns the project the request names. *)
Definition owner (db : Db) (req : Request) : Prop :=
  exists userId p,
    session req = Some userId /\ In p (carousel_projects db)
    /\ matches (params_id req) userId p = true.

End Projects.

(* ================================================================== *)
(** ** More vocabulary: commands, the active index, fresh identifiers *)
(* ================================================================== *)

(** The commands the [switch] of [handleFormatText] has a case for. *)
Definition known_command (format : string) : bool :=
  String.eqb format "bold" || String.eqb format "italic"
  || String.eqb format "hashtag" || String.eqb format "mention"
  || String.eqb format "insert".

(** The types the [switch] of [handleApplyStyleSuggestion] has a case
    for. *)
Definition known_type (t : string) : bool :=
  String.eqb t "emphasis" || String.eqb t "hashtag" || String.eqb t "emoji"
  || String.eqb t "mention" || String.eqb t "structure".

(** The identifiers of the slides the editor holds. *)
Definition slide_ids (e : Editor.State) : list Id :=
  map Slide.id (Editor.slides e).

(** The active index points at a slide. *)
Definition index_valid (e : Editor.State) : Prop :=
  (0 <= Editor.currentSlideIndex e
   < Z.of_nat (length (Editor.slides e)))%Z.

(** Slides have distinct identifiers and the active index points at one
    of them. *)
Definition well_formed (e : Editor.State) : Prop :=
  NoDup (slide_ids e) /\ index_valid e.

(** The identifier a new slide would get while the event is handled,
    from the storage service for Add and from [generateId] for
    Duplicate, is not the identifier of a slide the editor holds. *)
Definition fresh_for (w : Editor.World) (ev : Editor.Env * Editor.Action)
  : Prop :=
  match snd ev with
  | Editor.Add =>
      ~ In (Server.generated_id (Editor.storage (fst ev)))
           (slide_ids (Editor.editor w))
  | Editor.Duplicate =>
      ~ In (Editor.generateId (fst ev)) (slide_ids (Editor.editor w))
  | _ => True
  end.

(** Every event of the sequence meets [fresh_for] in the state it is
    handled in. *)
Fixpoint run_fresh (w : Editor.World) (evs : list (Editor.Env * Editor.Action))
  : Prop :=
  match evs with
  | [] => True
  | ev :: evs' =>
      fresh_for w ev /\ run_fresh (Async.serve (fst ev) (snd ev) w) evs'
  end.

(** The list with its element at position [i] replaced by [x]. *)
Definition replaced {A : Type} (i : nat) (x : A) (l : list A) : list A :=
  firstn i l ++ x :: skipn (S i) l.

(* ================================================================== *)
(** ** More sample data *)
(* ================================================================== *)

Module Cases.

(** Project [p1] with twelve slides in the store. *)
Definition crowded : Server.Db :=
  {| Server.carousel_projects := Server.carousel_projects Sample.store;
     Server.slides := repeat Sample.first 12 |}.

(** Alice asks for one more slide, numbered 1 like the others. *)
Definition one_more : Server.Request :=
  {| Server.session := Some "alice"%string;
     Server.params_id := "p1";
     Server.json :=
       Some {| Server.slide_number := Some 1;
               Server.content := Some (Server.JString (lit "More"));
               Server.title := None;
               Server.tone := None |} |}.

(** Alice submits the number 5 as content. *)
Definition five : Server.Request :=
  {| Server.session := Some "alice"%string;
     Server.params_id := "p1";
     Server.json :=
       Some {| Server.slide_number := Some 3;
               Server.content := Some (Server.JNumber 5);
               Server.title := None;
               Server.tone := None |} |}.

(** A project that has reached nine slides. *)
Definition nine : Editor.World :=
  {| Editor.editor :=
       {| Editor.projectId := "p1";
          Editor.slides := repeat Sample.first 9;
          Editor.currentSlide := Some Sample.first;
          Editor.isAutoSaving := false;
          Editor.lastSaved := None;
          Editor.content := lit "Hello";
          Editor.currentSlideIndex := 0;
          Editor.textarea :=
            Some {| Editor.selectionStart := 0; Editor.selectionEnd := 0 |} |};
     Editor.db := Sample.store;
     Editor.trace := [] |}.

(** What the environment decides for a second request: the storage
    service generates another id. *)
Definition again : Editor.Env :=
  {| Editor.now := "2025-06-01T10:05:01.000Z";
     Editor.later := "2025-06-01T10:05:01.250Z";
     Editor.generateId := "s5";
     Editor.link := Editor.delivered;
     Editor.session := Some "alice"%string;
     Editor.storage :=
       {| Server.select_error := false;
          Server.insert_error := false;
          Server.generated_id := "s4";
          Server.generated_at := "2025-06-01T10:05:01.000Z";
          Server.default_char_count := 0;
          Server.cast_text := fun _ => lit "5" |} |}.

Definition launch : Projects.Project :=
  {| Projects.id := "p1";
     Projects.user_id := "alice";
     Projects.title := lit "Launch";
     Projects.description := Some (lit "Spring");
     Projects.template_id := Some "t1"%string;
     Projects.document_id := None;
     Projects.target_audience := None |}.

Definition recap : Projects.Project :=
  {| Projects.id := "p2";
     Projects.user_id := "bob";
     Projects.title := lit "Recap";
     Projects.description := None;
     Projects.template_id := None;
     Projects.document_id := None;
     Projects.target_audience := None |}.

Definition row (project : Id) (n : nat) (id : Id) (text : string) : Slide :=
  {| Slide.id := id;
     Slide.project_id := project;
     Slide.slide_number := n;
     Slide.content := lit text;
     Slide.title := None;
     Slide.tone := None;
     Slide.char_count := length (lit text);
     Slide.created_at := "2025-06-01T10:00:00.000Z";
     Slide.updated_at := "2025-06-01T10:00:00.000Z" |}.

(** Alice's project has three slides, stored out of order; Bob's has
    one. *)
Definition library : Projects.Db :=
  {| Projects.carousel_projects := [launch; recap];
     Projects.slides :=
       [row "p1" 2 "s2" "two"; row "p2" 1 "r1" "recap";
        row "p1" 3 "s3" "three"; row "p1" 1 "s1" "one"];
     Projects.brand_voice_templates :=
       [ {| Projects.Template.id := "t1";
            Projects.Template.name := lit "Friendly";
            Projects.Template.voice_profile := lit "warm" |} ];
     Projects.documents := [] |}.

(** A body that sets a description and nothing else. *)
Definition summer : Projects.Patch.t :=
  {| Projects.Patch.title := None;
     Projects.Patch.description := Some (lit "Summer");
     Projects.Patch.template_id := None;
     Projects.Patch.document_id := None;
     Projects.Patch.target_audience := None |}.

Definition from_alice : Projects.Request :=
  {| Projects.session := Some "alice"%string;
     Projects.params_id := "p1";
     Projects.json := Some summer |}.

(** Bob addresses Alice's project. *)
Definition from_bob : Projects.Request :=
  {| Projects.session := Some "bob"%string;
     Projects.params_id := "p1";
     Projects.json := Some summer |}.

End Cases.

(* ================================================================== *)
(** ** Reading [substring] as a slice *)
(* ================================================================== *)

Section Slices.

Variable B : jsstring.

Local Abbreviation slice := (slice B).

Lemma substring_slice (a b : nat) :
  a <= b <= length B -> substring B a b = slice a b.
Proof.
  intros [Hab Hb]. unfold substring, slice.
  rewrite (Nat.min_l a) by lia. rewrite (Nat.min_l b) by lia.
  rewrite Nat.min_l by lia. rewrite Nat.max_r by lia. reflexivity.
Qed.

Lemma substring_prefix (a : nat) :
  a <= length B -> substring B 0 a = firstn a B.
Proof.
  intros Ha. rewrite substring_slice by lia. unfold slice.
  now rewrite Nat.sub_0_r.
Qed.

Lemma substring_from_skipn (a : nat) : substring_from B a = skipn a B.
Proof.
  unfold substring_from, substring.
  rewrite Nat.min_id.
  rewrite (Nat.min_l (Nat.min a (length B))) by lia.
  rewrite Nat.max_r by lia.
  destruct (Nat.le_gt_cases a (length B)) as [Ha | Ha].
  - rewrite Nat.min_l by lia. apply firstn_all2. rewrite length_skipn. lia.
  - rewrite Nat.min_r by lia. rewrite Nat.sub_diag. simpl.
    symmetry. apply skipn_all2. lia.
Qed.

Lemma slice_length (a b : nat) :
  a <= b <= length B -> length (slice a b) = b - a.
Proof.
  intros H. unfold slice. rewrite length_firstn, length_skipn. lia.
Qed.

Lemma slice_truthy (a b : nat) :
  a < b <= length B -> truthy (slice a b) = true.
Proof.
  intros H. pose proof (slice_length a b) as L.
  destruct (slice a b); [simpl in L; lia | reflexivity].
Qed.

Lemma slice_empty (a : nat) : slice a a = [].
Proof. unfold slice. now rewrite Nat.sub_diag. Qed.

(** A buffer is its prefix, the selection and its suffix. *)
Lemma split_at_selection (a b : nat) :
  a <= b -> firstn a B ++ slice a b ++ skipn b B = B.
Proof.
  intros H. unfold slice.
  replace (skipn b B) with (skipn (b - a) (skipn a B)).
  - rewrite firstn_skipn. apply firstn_skipn.
  - rewrite skipn_skipn. f_equal. lia.
Qed.

End Slices.

(* ================================================================== *)
(** ** Deleting code units at given positions *)
(* ================================================================== *)

Section RemovePositions.

Context {A : Type}.

Lemma remove_from_app (ps : list nat) (l1 l2 : list A) (i : nat) :
  remove_from i ps (l1 ++ l2)
  = remove_from i ps l1 ++ remove_from (i + length l1) ps l2.
Proof.
  revert i. induction l1 as [| x l1 IH]; intros i; simpl.
  - now rewrite Nat.add_0_r.
  - rewrite IH. replace (S i + length l1) with (i + S (length l1)) by lia.
    now destruct (existsb (Nat.eqb i) ps).
Qed.

Lemma remove_from_outside (ps : list nat) (l : list A) (i : nat) :
  (forall p, In p ps -> p < i \/ i + length l <= p) ->
  remove_from i ps l = l.
Proof.
  revert i. induction l as [| x l IH]; intros i H; simpl; [reflexivity |].
  destruct (existsb (Nat.eqb i) ps) eqn:E.
  - apply existsb_exists in E. destruct E as [p [Hp Heq]].
    apply Nat.eqb_eq in Heq. subst p.
    destruct (H i Hp) as [L | L]; simpl in L; lia.
  - f_equal. apply IH. intros p Hp.
    destruct (H p Hp) as [L | L]; simpl in L; [| lia].
    destruct (Nat.eq_dec p i) as [-> | Hne]; [| lia].
    exfalso.
    assert (existsb (Nat.eqb i) ps = true) as C.
    { apply existsb_exists. exists i. split; [assumption | apply Nat.eqb_refl]. }
    congruence.
Qed.

Lemma remove_from_inside (ps : list nat) (l : list A) (i : nat) :
  (forall p, i <= p < i + length l -> In p ps) ->
  remove_from i ps l = [].
Proof.
  revert i. induction l as [| x l IH]; intros i H; simpl; [reflexivity |].
  assert (existsb (Nat.eqb i) ps = true) as ->.
  { apply existsb_exists. exists i. split; [| apply Nat.eqb_refl].
    apply H. simpl. lia. }
  apply IH. intros p Hp. apply H. simpl. lia.
Qed.

End RemovePositions.

(* ================================================================== *)
(** ** The formatting commands *)
(* ================================================================== *)

Module FormatFacts.

Import Editor.

Lemma bold_selection (B : jsstring) (start end_ : nat) (v : option jsstring) :
  start < end_ <= length B ->
  formatText B start end_ "bold" v
  = (spliced B start end_ (lit "**" ++ slice B start end_ ++ lit "**"),
     end_ + 4).
Proof.
  intros H. unfold formatText, spliced. simpl String.eqb. cbv iota.
  rewrite (substring_slice B start end_) by lia.
  rewrite (substring_prefix B start), substring_from_skipn by lia.
  now rewrite slice_truthy by lia.
Qed.

Lemma bold_caret (B : jsstring) (start : nat) (v : option jsstring) :
  start <= length B ->
  formatText B start start "bold" v
  = (spliced B start start (lit "****"), start + 2).
Proof.
  intros H. unfold formatText, spliced. simpl String.eqb. cbv iota.
  rewrite (substring_slice B start start) by lia.
  rewrite (substring_prefix B start), substring_from_skipn by lia.
  now rewrite slice_empty.
Qed.

Lemma prefixed_format (B : jsstring) (start end_ : nat)
      (format : string) (v : option jsstring) (prefix placeholder : string) :
  start <= end_ <= length B ->
  (forall c s e w,
      formatText c s e format w
      = (substring c 0 s
           ++ (lit prefix ++ or_else (substring c s e) (lit placeholder))
           ++ substring_from c e,
         s + length (or_else (substring c s e) (lit placeholder)) + 1)) ->
  formatText B start end_ format v
  = (spliced B start end_
       (lit prefix ++ or_else (slice B start end_) (lit placeholder)),
     start + length (or_else (slice B start end_) (lit placeholder)) + 1).
Proof.
  intros H E. rewrite E. unfold spliced.
  rewrite (substring_slice B start end_) by lia.
  now rewrite (substring_prefix B start), substring_from_skipn by lia.
Qed.

Lemma hashtag_format (B : jsstring) (start end_ : nat) (v : option jsstring) :
  start <= end_ <= length B ->
  formatText B start end_ "hashtag" v
  = (spliced B start end_
       (lit "#" ++ or_else (slice B start end_) (lit "hashtag")),
     start + length (or_else (slice B start end_) (lit "hashtag")) + 1).
Proof.
  intros H. apply prefixed_format; [assumption | reflexivity].
Qed.

Lemma mention_format (B : jsstring) (start end_ : nat) (v : option jsstring) :
  start <= end_ <= length B ->
  formatText B start end_ "mention" v
  = (spliced B start end_
       (lit "@" ++ or_else (slice B start end_) (lit "username")),
     start + length (or_else (slice B start end_) (lit "username")) + 1).
Proof.
  intros H. apply prefixed_format; [assumption | reflexivity].
Qed.

Lemma or_else_selection (B : jsstring) (start end_ : nat) (d : jsstring) :
  start < end_ <= length B ->
  or_else (slice B start end_) d = slice B start end_.
Proof. intros H. unfold or_else. now rewrite slice_truthy. Qed.

Lemma or_else_caret (B : jsstring) (start : nat) (d : jsstring) :
  or_else (slice B start start) d = d.
Proof. now rewrite slice_empty. Qed.

(** ** C2 *)

(** C2. With a selection [start, end_) inside the buffer, bold yields the
    text before the selection, two asterisks, the selected text, two
    asterisks and the text after the selection, with the caret at
    [end_ + 4] when the selection is not empty; with an empty selection
    it yields four asterisks spliced in at the caret, with the new caret
    at [start + 2].  On "hello world" with selection (0, 5) the result
    is "**hello** world" and the caret is 9. *)
Theorem bold_command (B : jsstring) (start end_ : nat) (v : option jsstring) :
  start <= end_ <= length B ->
  (start < end_ ->
   formatText B start end_ "bold" v
   = (firstn start B ++ lit "**" ++ slice B start end_ ++ lit "**"
        ++ skipn end_ B,
      end_ + 4))
  /\ (start = end_ ->
      formatText B start end_ "bold" v
      = (firstn start B ++ lit "****" ++ skipn start B, start + 2))
  /\ formatText (lit "hello world") 0 5 "bold" v
     = (lit "**hello** world", 9).
Proof.
  intros H. split; [| split].
  - intros Hlt. rewrite bold_selection by lia. unfold spliced.
    now rewrite <- !app_assoc.
  - intros <-. now rewrite bold_caret by lia.
  - reflexivity.
Qed.

Lemma bold_command_witness :
  formatText (lit "hello world") 6 11 "bold" None
  = (lit "hello **world**", 15)
  /\ formatText (lit "hello world") 5 5 "bold" None
     = (lit "hello**** world", 7).
Proof.
  split.
  - refine (proj1 (bold_command (lit "hello world") 6 11 None _) _);
      simpl; lia.
  - refine (proj1 (proj2 (bold_command (lit "hello world") 5 5 None _)) _);
      [simpl; lia | reflexivity].
Defined.

(** ** C7 *)

(** C7. With a selection [start, end_) inside the buffer: on an empty
    selection hashtag splices in exactly "#hashtag" and mention exactly
    "@username", and the caret returned is [start] plus the length of
    the placeholder plus one; on a non-empty selection the selection is
    replaced by "#" (resp. "@") followed by the selected text, and the
    caret is the position right after the inserted text, where the rest
    of the buffer follows unchanged. *)
Theorem hashtag_mention_command (B : jsstring) (start end_ : nat)
        (v : option jsstring) :
  start <= end_ <= length B ->
  (start = end_ ->
   formatText B start end_ "hashtag" v
   = (spliced B start start (lit "#hashtag"),
      start + length (lit "hashtag") + 1)
   /\ formatText B start end_ "mention" v
      = (spliced B start start (lit "@username"),
         start + length (lit "username") + 1))
  /\ (start < end_ ->
      formatText B start end_ "hashtag" v
      = (spliced B start end_ (lit "#" ++ slice B start end_),
         start + length (lit "#" ++ slice B start end_))
      /\ formatText B start end_ "mention" v
         = (spliced B start end_ (lit "@" ++ slice B start end_),
            start + length (lit "@" ++ slice B start end_))).
Proof.
  intros H. split.
  - intros <-.
    rewrite hashtag_format, mention_format by lia.
    now rewrite !or_else_caret.
  - intros Hlt.
    rewrite hashtag_format, mention_format by lia.
    rewrite !or_else_selection by lia.
    split; f_equal; simpl; lia.
Qed.

Lemma hashtag_mention_command_witness :
  formatText (lit "hello world") 11 11 "mention" None
  = (lit "hello world@username", 20)
  /\ formatText (lit "hello world") 6 11 "hashtag" None
     = (lit "hello #world", 12).
Proof.
  split.
  - refine (proj2 (proj1 (hashtag_mention_command
                            (lit "hello world") 11 11 None _) _));
      [simpl; lia | reflexivity].
  - refine (proj1 (proj2 (hashtag_mention_command
                            (lit "hello world") 6 11 None _) _));
      simpl; lia.
Defined.

(** ** C9 *)

(** C9. With a selection [s, e) inside the buffer, removing from the
    buffer that bold produces the code units at positions [s], [s + 1],
    [e + 2] and [e + 3] gives the original buffer back. *)
Theorem bold_round_trip (B : jsstring) (s e : nat) (v : option jsstring) :
  s <= e <= length B ->
  remove_positions [s; s + 1; e + 2; e + 3]
                   (fst (formatText B s e "bold" v)) = B.
Proof.
  intros H.
  assert (fst (formatText B s e "bold" v)
          = firstn s B ++ lit "**" ++ slice B s e ++ lit "**" ++ skipn e B)
    as ->.
  { destruct (Nat.eq_dec s e) as [<- | Hne].
    - rewrite bold_caret by lia. unfold spliced. simpl.
      now rewrite slice_empty.
    - rewrite bold_selection by lia. unfold spliced. simpl.
      now rewrite <- !app_assoc. }
  unfold remove_positions.
  assert (length (firstn s B) = s) as Ls by (rewrite length_firstn; lia).
  pose proof (slice_length B s e H) as Lm.
  rewrite !remove_from_app. rewrite Ls, Lm. simpl Nat.add at 1.
  rewrite (remove_from_outside _ (firstn s B))
    by (simpl; intros p Hp; lia).
  rewrite (remove_from_inside _ (lit "**"))
    by (simpl; intros p Hp;
        assert (p = s \/ p = s + 1) as [-> | ->] by lia; tauto).
  rewrite (remove_from_outside _ (slice B s e))
    by (simpl; intros p Hp; lia).
  rewrite (remove_from_inside _ (lit "**"))
    by (simpl; intros p Hp;
        assert (p = e + 2 \/ p = e + 3) as [-> | ->] by lia; tauto).
  rewrite (remove_from_outside _ (skipn e B))
    by (simpl; intros p Hp; lia).
  simpl. apply split_at_selection. lia.
Qed.

Lemma bold_round_trip_witness :
  remove_positions [0; 1; 7; 8] (lit "**hello** world") = lit "hello world".
Proof.
  refine (bold_round_trip (lit "hello world") 0 5 None _). simpl; lia.
Defined.

End FormatFacts.

(* ================================================================== *)
(** ** The content-change pipeline seen from the buffer *)
(* ================================================================== *)

Module PipelineFacts.

Import Editor.

(** After [handleContentChange(value)] the buffer is [value]. *)
Lemma handleContentChange_content (env : Env) (value : jsstring) (w : World) :
  content (editor (handleContentChange env value w)) = value.
Proof.
  unfold handleContentChange. simpl.
  destruct (currentSlide (editor w)); [| reflexivity].
  destruct (link env); reflexivity.
Qed.

(** With the textarea mounted, applying a suggestion is a content change
    to the buffer that [applyStyleSuggestion] computes. *)
Lemma handleApplyStyleSuggestion_routed
      (env : Env) (s : StyleSuggestion) (w : World) :
  textarea (editor w) <> None ->
  handleApplyStyleSuggestion env s w
  = handleContentChange env (applyStyleSuggestion (content (editor w)) s) w.
Proof.
  intros H. unfold handleApplyStyleSuggestion.
  destruct (textarea (editor w)); [reflexivity | contradiction].
Qed.

End PipelineFacts.

(* ================================================================== *)
(** ** Style suggestions *)
(* ================================================================== *)

Module SuggestionFacts.

Import Editor PipelineFacts.

Lemma GetSubstitution_plain (matched before after template : jsstring) :
  ~ In DOLLAR template ->
  GetSubstitution matched before after template = template.
Proof.
  induction template as [| c rest IH]; intros H; simpl; [reflexivity |].
  destruct (N.eqb_spec c DOLLAR) as [-> | Hc].
  - exfalso. apply H. now left.
  - f_equal. apply IH. intros Hin. apply H. now right.
Qed.

Lemma replace_empty_pattern (B replacement : jsstring) :
  replace B [] replacement = GetSubstitution [] [] B replacement ++ B.
Proof. unfold replace. now destruct B. Qed.

(** A suggestion without a dollar sign, applied as emphasis with an
    empty [original], is put in front of the buffer. *)
Lemma emphasis_empty_original_plain (B : jsstring) (s : StyleSuggestion) :
  type s = "emphasis"%string -> original s = [] ->
  ~ In DOLLAR (suggestion s) ->
  applyStyleSuggestion B s = suggestion s ++ B.
Proof.
  intros Ht Ho Hd. unfold applyStyleSuggestion. rewrite Ht, Ho. simpl.
  rewrite replace_empty_pattern. now rewrite GetSubstitution_plain.
Qed.

(** ** C8 *)

(** C8. A suggestion of type hashtag, emoji or mention turns the buffer
    [B] into the trimmed buffer, one space and the suggestion text,
    whatever the trimmed buffer ends with. *)
Theorem append_suggestion (B : jsstring) (s : StyleSuggestion) :
  type s = "hashtag"%string \/ type s = "emoji"%string
  \/ type s = "mention"%string ->
  applyStyleSuggestion B s = trim B ++ lit " " ++ suggestion s.
Proof.
  intros H. unfold applyStyleSuggestion.
  destruct H as [-> | [-> | ->]]; simpl String.eqb; cbv iota;
    simpl orb; cbv iota;
    now destruct (endsWith (trim B) (lit ".") || endsWith (trim B) (lit "!")
                  || endsWith (trim B) (lit "?")).
Qed.

Lemma append_suggestion_witness :
  applyStyleSuggestion (lit "  Big sale today!  ")
    {| type := "emoji"; original := []; suggestion := lit ":)" |}
  = lit "Big sale today! :)"
  /\ applyStyleSuggestion (lit "New drop")
       {| type := "hashtag"; original := []; suggestion := lit "#news" |}
     = lit "New drop #news".
Proof.
  split.
  - refine (append_suggestion (lit "  Big sale today!  ")
              {| type := "emoji"; original := []; suggestion := lit ":)" |} _).
    right; left; reflexivity.
  - refine (append_suggestion (lit "New drop")
              {| type := "hashtag"; original := [];
                 suggestion := lit "#news" |} _).
    left; reflexivity.
Defined.

(** ** C10 *)

(** C10. An emphasis suggestion with an empty [original] is spliced in at
    position 0 and handed to the content-change pipeline, but the text
    spliced in is the suggestion after substitution of its dollar
    patterns: on buffer "abc" the suggestion "Save $$ " yields
    "Save $ abc", which is not the suggestion followed by the buffer. *)
Theorem emphasis_empty_original_dollar :
  applyStyleSuggestion (lit "abc") Sample.dollars = lit "Save $ abc"
  /\ applyStyleSuggestion (lit "abc") Sample.dollars
     <> suggestion Sample.dollars ++ lit "abc"
  /\ handleApplyStyleSuggestion Sample.env Sample.dollars
       (update (setContent (lit "abc")) Sample.world)
     = handleContentChange Sample.env (lit "Save $ abc")
         (update (setContent (lit "abc")) Sample.world).
Proof.
  split; [reflexivity | split; [discriminate | reflexivity]].
Qed.

End SuggestionFacts.

(* ================================================================== *)
(** ** The create-slide endpoint *)
(* ================================================================== *)

Module ServerFacts.

Import Server.

Lemma single_In {A} (rows : list A) (row : A) :
  single rows = Some row -> In row rows.
Proof.
  destruct rows as [| r [| r' rows]]; simpl; try discriminate.
  intros [= ->]. now left.
Qed.

(** A successful ownership check found a project of the caller. *)
Lemma select_project_owned (db : Db) (st : Storage) (id userId : Id)
      (p : Project) :
  select_project db st id userId = Some p ->
  In p (carousel_projects db) /\ Server.id p = id /\ user_id p = userId.
Proof.
  unfold select_project. destruct (select_error st); [discriminate |].
  intros H. apply single_In in H. apply filter_In in H.
  destruct H as [Hin Hf]. apply andb_prop in Hf. destruct Hf as [H1 H2].
  apply String.eqb_eq in H1, H2. auto.
Qed.

Lemma select_project_stranger (db : Db) (st : Storage) (req : Request)
      (userId : Id) :
  session req = Some userId -> ~ owns db req ->
  select_project db st (params_id req) userId = None.
Proof.
  intros Hs Hn.
  destruct (select_project db st (params_id req) userId) as [p |] eqn:E;
    [| reflexivity].
  exfalso. apply Hn. apply select_project_owned in E.
  destruct E as [Hin [Hid Hu]]. now exists userId, p.
Qed.

(** The four answers of the handler. *)
Lemma POST_unauthenticated (db : Db) (st : Storage) (req : Request) :
  session req = None ->
  POST db st req = (db, json_error "Authentication required" 401).
Proof.
  intros H. unfold POST, POST_try, requireAuth. now rewrite H.
Qed.

Lemma POST_unreadable (db : Db) (st : Storage) (req : Request) (userId : Id) :
  session req = Some userId -> json req = None ->
  POST db st req = (db, json_error "Internal server error" 500).
Proof.
  intros Hs Hj. unfold POST, POST_try, requireAuth, request_json.
  now rewrite Hs, Hj.
Qed.

Lemma POST_readable (db : Db) (st : Storage) (req : Request)
      (userId : Id) (body : Body) :
  session req = Some userId -> json req = Some body ->
  POST db st req
  = match select_project db st (params_id req) userId with
    | None => (db, json_error "Project not found" 404)
    | Some _ =>
        match insert_slide db st (new_row st (params_id req) body) with
        | (db', None) => (db', json_error "Failed to create slide" 500)
        | (db', Some slide) => (db', json_slide slide)
        end
    end.
Proof.
  intros Hs Hj. unfold POST, POST_try, requireAuth, request_json.
  rewrite Hs, Hj. simpl.
  destruct (select_project db st (params_id req) userId); [| reflexivity].
  destruct (insert_slide db st (new_row st (params_id req) body))
    as [db' [slide |]]; reflexivity.
Qed.

Lemma POST_stranger (db : Db) (st : Storage) (req : Request)
      (userId : Id) (body : Body) :
  session req = Some userId -> json req = Some body -> ~ owns db req ->
  POST db st req = (db, json_error "Project not found" 404).
Proof.
  intros Hs Hj Hn. rewrite (POST_readable db st req _ _ Hs Hj).
  now rewrite (select_project_stranger db st req _ Hs Hn).
Qed.

(** The five ways through the handler: no session; a body that cannot be
    read; no project of the caller; a failed insert; a created slide. *)
Ltac POST_paths db st req :=
  let userId := fresh "userId" in
  let body := fresh "body" in
  let Hs := fresh "Hs" in
  let Hj := fresh "Hj" in
  let Hp := fresh "Hp" in
  let Hi := fresh "Hi" in
  let p := fresh "p" in
  destruct (session req) as [userId |] eqn:Hs;
  [ destruct (json req) as [body |] eqn:Hj;
    [ rewrite (POST_readable db st req _ _ Hs Hj);
      destruct (select_project db st (params_id req) userId) as [p |] eqn:Hp;
      [ unfold insert_slide; destruct (insert_error st) eqn:Hi | ]
    | rewrite (POST_unreadable db st req _ Hs Hj) ]
  | rewrite (POST_unauthenticated db st req Hs) ].

(** What an accepted request does: the response carries the new row and
    the table is the old one followed by that row. *)
Lemma POST_ok (db : Db) (st : Storage) (req : Request) :
  ok (snd (POST db st req)) = true ->
  exists userId body p,
    session req = Some userId /\ json req = Some body /\
    select_project db st (params_id req) userId = Some p /\
    POST db st req
    = ({| carousel_projects := carousel_projects db;
          slides := slides db ++ [new_row st (params_id req) body] |},
       json_slide (new_row st (params_id req) body)).
Proof.
  POST_paths db st req; try discriminate.
  intros _. exists userId, body, p. now repeat split.
Qed.

(** The table changes only through an accepted request. *)
Lemma POST_inserts (db : Db) (st : Storage) (req : Request) :
  slides (fst (POST db st req)) <> slides db ->
  ok (snd (POST db st req)) = true.
Proof.
  POST_paths db st req; simpl; intros H;
    solve [reflexivity | now contradiction H].
Qed.

Lemma POST_projects (db : Db) (st : Storage) (req : Request) :
  carousel_projects (fst (POST db st req)) = carousel_projects db.
Proof. POST_paths db st req; reflexivity. Qed.

(** A submitted string is stored as it is, with its length. *)
Lemma new_row_string (st : Storage) (id : Id) (body : Body) (s : jsstring) :
  content body = Some (JString s) ->
  Slide.content (new_row st id body) = s
  /\ Slide.char_count (new_row st id body) = length s.
Proof.
  intros H. unfold new_row, stored, inserted, content_or_empty. simpl.
  rewrite H. simpl. destruct s; now split.
Qed.

(** No content, or a falsy one, is stored as the empty string. *)
Lemma new_row_falsy (st : Storage) (id : Id) (body : Body) :
  content body = None
  \/ (exists v, content body = Some v /\ truthy_json v = false) ->
  Slide.content (new_row st id body) = []
  /\ Slide.char_count (new_row st id body) = 0.
Proof.
  unfold new_row, stored, inserted, content_or_empty. simpl.
  intros [-> | [v [-> ->]]]; now split.
Qed.

(** ** C5 *)

(** C5, as stated, fails: Bob, signed in and not the owner of project
    [p1], sends a body that is not JSON and is answered with status 500,
    not 404. *)
Lemma stranger_unreadable_body_500 :
  session Sample.garbled = Some "bob"%string
  /\ ~ owns Sample.store Sample.garbled
  /\ snd (POST Sample.store Sample.healthy Sample.garbled)
     = json_error "Internal server error" 500
  /\ status (snd (POST Sample.store Sample.healthy Sample.garbled)) <> 404.
Proof.
  split; [reflexivity | split; [| split; [reflexivity | discriminate]]].
  intros [userId [p [Hs [Hin [Hid Hu]]]]]. simpl in Hs, Hin, Hid.
  injection Hs as <-.
  destruct Hin as [<- | [<- | []]]; simpl in Hid, Hu; discriminate.
Qed.

(** C5, amended.  A request without a session is answered with 401.  A
    request of a signed-in caller whose body can be read and who does
    not own the project named, whether that project exists or not, is
    answered with 404 "Project not found" and changes nothing; one
    whose body cannot be read is answered with 500 before ownership is
    looked at.  In every case the answer to a caller who is not the
    owner is the same whatever the projects table holds, and a slide
    row is inserted only after the ownership check found a project of
    the caller. *)
Theorem create_slide_access (db : Db) (st : Storage) (req : Request) :
  (session req = None ->
   POST db st req = (db, json_error "Authentication required" 401))
  /\ (session req <> None -> json req <> None -> ~ owns db req ->
      POST db st req = (db, json_error "Project not found" 404))
  /\ (session req <> None -> json req = None ->
      POST db st req = (db, json_error "Internal server error" 500))
  /\ (forall db' st',
        ~ owns db req -> ~ owns db' req ->
        snd (POST db st req) = snd (POST db' st' req))
  /\ (slides (fst (POST db st req)) <> slides db ->
      owns db req
      /\ exists userId p,
          session req = Some userId
          /\ select_project db st (params_id req) userId = Some p).
Proof.
  split; [apply POST_unauthenticated |].
  split.
  { intros Hs Hj Hn.
    destruct (session req) as [userId |] eqn:Es; [| congruence].
    destruct (json req) as [body |] eqn:Ej; [| congruence].
    now apply (POST_stranger db st req userId body). }
  split.
  { intros Hs Hj.
    destruct (session req) as [userId |] eqn:Es; [| congruence].
    now apply (POST_unreadable db st req userId). }
  split.
  { intros db' st' Hn Hn'.
    destruct (session req) as [userId |] eqn:Es.
    2:{ now rewrite !POST_unauthenticated. }
    destruct (json req) as [body |] eqn:Ej.
    2:{ now rewrite !(POST_unreadable _ _ req userId Es Ej). }
    now rewrite !(POST_stranger _ _ req userId body Es Ej). }
  intros Hc. apply POST_inserts, POST_ok in Hc.
  destruct Hc as [userId [body [p [Hs [_ [Hp _]]]]]].
  split; [| now exists userId, p].
  apply select_project_owned in Hp. destruct Hp as [Hin [Hid Hu]].
  now exists userId, p.
Qed.

Lemma create_slide_access_witness :
  POST Sample.store Sample.healthy Sample.intruding
  = (Sample.store, json_error "Project not found" 404).
Proof.
  refine (proj1 (proj2 (create_slide_access
                          Sample.store Sample.healthy Sample.intruding))
                _ _ _).
  - discriminate.
  - discriminate.
  - intros [userId [p [Hs [Hin [Hid Hu]]]]]. simpl in Hs, Hin, Hid.
    injection Hs as <-.
    destruct Hin as [<- | [<- | []]]; simpl in Hid, Hu; discriminate.
Defined.

End ServerFacts.

(* ================================================================== *)
(** ** The slide collection *)
(* ================================================================== *)

Module EditorFacts.

Import Editor ServerFacts.

(** *** The store operations on lists *)

Lemma updateSlide_length (id : Id) (u : Slide) (l : list Slide) :
  length (updateSlide id u l) = length l.
Proof. apply length_map. Qed.

Lemma deleteSlide_length (id : Id) (l : list Slide) :
  length (deleteSlide id l) <= length l.
Proof. apply filter_length_le. Qed.

Lemma filter_all {A} (f : A -> bool) (l : list A) :
  (forall x, In x l -> f x = true) -> filter f l = l.
Proof.
  induction l as [| x l IH]; intros H; simpl; [reflexivity |].
  rewrite (H x) by now left.
  f_equal. apply IH. intros y Hy. apply H. now right.
Qed.



(** *** What each handler does to the slides, the index and the store *)

Lemma handleContentChange_slides (env : Env) (v : jsstring) (w : World) :
  slides (editor (handleContentChange env v w))
  = match currentSlide (editor w) with
    | None => slides (editor w)
    | Some cs =>
        updateSlide (Slide.id cs) (updatedSlide cs v (now env))
                    (slides (editor w))
    end.
Proof.
  unfold handleContentChange. simpl.
  destruct (currentSlide (editor w)); [| reflexivity].
  destruct (link env); reflexivity.
Qed.

Lemma handleContentChange_frame (env : Env) (v : jsstring) (w : World) :
  currentSlide (editor (handleContentChange env v w)) = currentSlide (editor w)
  /\ currentSlideIndex (editor (handleContentChange env v w))
     = currentSlideIndex (editor w)
  /\ db (handleContentChange env v w) = db w.
Proof.
  unfold handleContentChange. simpl.
  destruct (currentSlide (editor w)) eqn:E; [destruct (link env) |];
    simpl; rewrite ?E; now repeat split.
Qed.

Lemma handleFormatText_slides (env : Env) (f : string) (v : option jsstring)
      (w : World) :
  textarea (editor w) = None /\ handleFormatText env f v w = w
  \/ exists c,
      slides (editor (handleFormatText env f v w))
      = slides (editor (handleContentChange env c w))
      /\ currentSlide (editor (handleFormatText env f v w))
         = currentSlide (editor w)
      /\ currentSlideIndex (editor (handleFormatText env f v w))
         = currentSlideIndex (editor w)
      /\ db (handleFormatText env f v w) = db w.
Proof.
  unfold handleFormatText.
  destruct (textarea (editor w)) as [ta |]; [right | now left].
  destruct (formatText (content (editor w)) (selectionStart ta)
                       (selectionEnd ta) f v) as [c p].
  exists c. destruct (handleContentChange_frame env c w) as [H1 [H2 H3]].
  now repeat split.
Qed.

Lemma handleApplyStyleSuggestion_slides (env : Env) (s : StyleSuggestion)
      (w : World) :
  textarea (editor w) = None /\ handleApplyStyleSuggestion env s w = w
  \/ exists c,
      handleApplyStyleSuggestion env s w = handleContentChange env c w.
Proof.
  unfold handleApplyStyleSuggestion.
  destruct (textarea (editor w)); [right; eauto | now left].
Qed.

(** The slide the endpoint creates for [addNewSlide]. *)
Lemma add_row (env : Env) (e : State) :
  Server.new_row (storage env) (projectId e) (add_body e)
  = {| Slide.id := Server.generated_id (storage env);
       Slide.project_id := projectId e;
       Slide.slide_number := length (slides e) + 1;
       Slide.content := [];
       Slide.title := None;
       Slide.tone := None;
       Slide.char_count := 0;
       Slide.created_at := Server.generated_at (storage env);
       Slide.updated_at := Server.generated_at (storage env) |}.
Proof.
  unfold Server.new_row, add_body. simpl.
  now rewrite Nat.add_1_r.
Qed.

(** [addNewSlide] when the request succeeds: the store holds the new
    row, and the editor appends it and activates its position. *)
Lemma addNewSlide_accepted (env : Env) (w : World) :
  add_succeeds env w ->
  let slide :=
    Server.new_row (storage env) (projectId (editor w)) (add_body (editor w)) in
  add_answer env w = Server.json_slide slide
  /\ editor (addNewSlide env w)
     = setCurrentSlideIndex (Z.of_nat (length (slides (editor w))))
         (with_slides (slides (editor w) ++ [slide]) (editor w))
  /\ Server.slides (db (addNewSlide env w)) = Server.slides (db w) ++ [slide]
  /\ trace (addNewSlide env w)
     = trace w ++ [fetch_POST_slides (projectId (editor w))
                                     (add_body (editor w))].
Proof.
  intros [Hl Hok] slide. unfold add_answer in *.
  destruct (POST_ok _ _ _ Hok)
    as [userId [body [p [Hs [Hj [Hp E]]]]]].
  simpl in Hj. injection Hj as <-. simpl in E.
  unfold addNewSlide. rewrite Hl. simpl. rewrite E.
  unfold add_response. simpl. now repeat split.
Qed.

(** [addNewSlide] when the request fails: the editor is untouched and
    the failure only reaches the console. *)
Lemma addNewSlide_rejected (env : Env) (w : World) :
  ~ add_succeeds env w ->
  editor (addNewSlide env w) = editor w
  /\ exists rest,
      trace (addNewSlide env w)
      = trace w ++ fetch_POST_slides (projectId (editor w))
                                     (add_body (editor w)) :: rest
      /\ (rest = [] \/ rest = [console_error "Error creating slide:"]).
Proof.
  intros H. unfold add_succeeds, add_answer in H. unfold addNewSlide.
  destruct (link env) eqn:Hl; simpl.
  - destruct (Server.POST (db w) (storage env) (add_request env (editor w)))
      as [db' r] eqn:E. simpl in H.
    unfold add_response.
    destruct (Server.ok r) eqn:Hok; [exfalso; now apply H |].
    simpl. split; [reflexivity |]. exists []. auto.
  - split; [reflexivity |]. eexists. rewrite <- app_assoc. simpl. eauto.
  - destruct (Server.POST (db w) (storage env) (add_request env (editor w)))
      as [db' r] eqn:E. simpl.
    split; [reflexivity |]. eexists. rewrite <- app_assoc. simpl. eauto.
Qed.

Lemma add_succeeds_dec (env : Env) (w : World) :
  {add_succeeds env w} + {~ add_succeeds env w}.
Proof.
  unfold add_succeeds.
  destruct (link env); destruct (Server.ok (add_answer env w));
    try (left; now split); right; intros [H1 H2]; discriminate.
Qed.

Lemma addNewSlide_db (env : Env) (w : World) :
  db (addNewSlide env w) = db w
  \/ db (addNewSlide env w)
     = fst (Server.POST (db w) (storage env) (add_request env (editor w))).
Proof.
  unfold addNewSlide.
  destruct (link env); simpl; [| now left |].
  - destruct (Server.POST (db w) (storage env) (add_request env (editor w)))
      as [db' r]. unfold add_response.
    destruct (Server.ok r); [destruct (Server.payload r) |]; now right.
  - destruct (Server.POST (db w) (storage env) (add_request env (editor w)))
      as [db' r]. now right.
Qed.

Lemma deleteCurrentSlide_frame (env : Env) (w : World) :
  db (deleteCurrentSlide env w) = db w
  /\ currentSlide (editor (deleteCurrentSlide env w)) = currentSlide (editor w)
  /\ (slides (editor (deleteCurrentSlide env w)) = slides (editor w)
      \/ exists id,
          slides (editor (deleteCurrentSlide env w))
          = deleteSlide id (slides (editor w))).
Proof.
  unfold deleteCurrentSlide.
  destruct (currentSlide (editor w)) as [cs |] eqn:E; [| now auto].
  destruct (1 <? length (slides (editor w))); [| now auto].
  destruct (link env); simpl; rewrite E; eauto.
Qed.

(** The button guards repeat the guard of [deleteCurrentSlide]. *)
Lemma clickDelete_deleteCurrentSlide (env : Env) (w : World) :
  clickDelete env w = deleteCurrentSlide env w.
Proof.
  unfold clickDelete, delete_disabled, deleteCurrentSlide.
  destruct (currentSlide (editor w)); [| reflexivity].
  destruct (length (slides (editor w))) as [| [| n]]; reflexivity.
Qed.

(** The effect on the index and the slides leaves the store's current
    slide at the active index. *)
Lemma effect_currentSlide_settles (w : World) :
  (0 <= currentSlideIndex (editor w) < Z.of_nat (length (slides (editor w))))%Z ->
  settled (editor (effect_currentSlide w)).
Proof.
  intros H. unfold effect_currentSlide, settled.
  assert ((0 <? length (slides (editor w)))
          && (currentSlideIndex (editor w)
              <? Z.of_nat (length (slides (editor w))))%Z = true) as ->.
  { apply andb_true_intro. split; [apply Nat.ltb_lt | apply Z.ltb_lt]; lia. }
  reflexivity.
Qed.

Lemma at_index_nat (l : list Slide) (i : nat) :
  at_index l (Z.of_nat i) = nth_error l i.
Proof.
  unfold at_index.
  assert ((Z.of_nat i <? 0)%Z = false) as -> by (apply Z.ltb_ge; lia).
  now rewrite Nat2Z.id.
Qed.

Lemma at_index_In (l : list Slide) (i : Z) (s : Slide) :
  at_index l i = Some s -> In s l.
Proof.
  unfold at_index. destruct (i <? 0)%Z; [discriminate |].
  apply nth_error_In.
Qed.

(** *** The cap on the collection *)

Lemma step_slides (w : World) (ev : Env * Action) :
  length (slides (editor (step w ev))) <= length (slides (editor w))
  \/ length (slides (editor w)) < 10
     /\ length (slides (editor (step w ev))) = length (slides (editor w)) + 1.
Proof.
  destruct ev as [env a]. destruct a; simpl.
  - unfold clickAdd, add_disabled.
    destruct (10 <=? length (slides (editor w))) eqn:E; [now left |].
    apply Nat.leb_gt in E.
    destruct (add_succeeds_dec env w) as [Ha | Hr].
    + right. split; [assumption |].
      destruct (addNewSlide_accepted env w Ha) as [_ [-> _]]. simpl.
      rewrite length_app. reflexivity.
    + left. destruct (addNewSlide_rejected env w Hr) as [-> _]. lia.
  - unfold clickDuplicate, duplicate_disabled, duplicateSlide.
    destruct (currentSlide (editor w)); [| now left].
    destruct (10 <=? length (slides (editor w))) eqn:E; [now left |].
    apply Nat.leb_gt in E. right. split; [assumption |].
    simpl. unfold addSlide. rewrite length_app. reflexivity.
  - left. rewrite clickDelete_deleteCurrentSlide.
    destruct (deleteCurrentSlide_frame env w) as [_ [_ [-> | [id ->]]]];
      [lia | apply deleteSlide_length].
  - left. unfold clickPrevious.
    now destruct (currentSlideIndex (editor w) =? 0)%Z.
  - left. unfold clickNext.
    now destruct (currentSlideIndex (editor w)
                  =? Z.of_nat (length (slides (editor w))) - 1)%Z.
  - left. rewrite handleContentChange_slides.
    destruct (currentSlide (editor w)); [| lia].
    now rewrite updateSlide_length.
  - now left.
  - left.
    destruct (handleFormatText_slides env format value w)
      as [[_ ->] | [c [-> _]]]; [lia |].
    rewrite handleContentChange_slides.
    destruct (currentSlide (editor w)); [| lia].
    now rewrite updateSlide_length.
  - left.
    destruct (handleApplyStyleSuggestion_slides env s w)
      as [[_ ->] | [c ->]]; [lia |].
    rewrite handleContentChange_slides.
    destruct (currentSlide (editor w)); [| lia].
    now rewrite updateSlide_length.
  - left. unfold effect_currentSlide.
    now destruct ((0 <? length (slides (editor w)))
                  && (currentSlideIndex (editor w)
                      <? Z.of_nat (length (slides (editor w))))%Z).
  - left. unfold effect_content.
    now destruct (currentSlide (editor w)).
Qed.

Lemma run_cap (evs : list (Env * Action)) (w : World) :
  length (slides (editor w)) <= 10 ->
  length (slides (editor (run w evs))) <= 10.
Proof.
  revert w. induction evs as [| ev evs IH]; intros w H; simpl;
    [assumption |].
  apply IH. destruct (step_slides w ev) as [L | [L1 L2]]; lia.
Qed.

(** *** The cap when requests do not overlap *)

(** The serial schedule, in which every request is answered before the
    next event is handled: a collection of at most 10 slides stays at
    most 10 slides long.  With 10 slides or more, a click on Add or on
    Duplicate changes nothing: not the collection, not the active index,
    not the store, and no request is sent.  An Add that goes through
    (fewer than 10 slides and a successful creation request) appends one
    slide, numbered the previous length plus one and with empty content,
    and makes the previous length the active index. *)
Theorem slide_cap (env : Env) (w : World) (evs : list (Env * Action)) :
  (length (slides (editor w)) <= 10 ->
   length (slides (editor (run w evs))) <= 10)
  /\ (10 <= length (slides (editor w)) ->
      clickAdd env w = w /\ clickDuplicate env w = w)
  /\ (length (slides (editor w)) < 10 -> add_succeeds env w ->
      exists slide,
        slides (editor (clickAdd env w)) = slides (editor w) ++ [slide]
        /\ Slide.slide_number slide = length (slides (editor w)) + 1
        /\ Slide.content slide = []
        /\ currentSlideIndex (editor (clickAdd env w))
           = Z.of_nat (length (slides (editor w)))).
Proof.
  split; [apply run_cap |]. split.
  - intros H. apply Nat.leb_le in H.
    unfold clickAdd, clickDuplicate, add_disabled, duplicate_disabled.
    rewrite H. split; [reflexivity |].
    now destruct (currentSlide (editor w)).
  - intros H Ha. apply Nat.leb_gt in H.
    unfold clickAdd, add_disabled. rewrite H.
    destruct (addNewSlide_accepted env w Ha) as [_ [-> _]].
    eexists. split; [reflexivity |].
    rewrite add_row. now repeat split.
Qed.

Lemma slide_cap_witness :
  length (slides (editor (run Sample.world
                              [(Sample.env, Add); (Sample.env, Duplicate);
                               (Sample.env, RunEffectCurrentSlide);
                               (Sample.env, Duplicate)]))) <= 10
  /\ clickAdd Sample.env Sample.full = Sample.full
  /\ clickDuplicate Sample.env Sample.full = Sample.full
  /\ exists slide,
      slides (editor (clickAdd Sample.env Sample.world))
      = slides (editor Sample.world) ++ [slide]
      /\ Slide.slide_number slide = 3
      /\ Slide.content slide = []
      /\ currentSlideIndex (editor (clickAdd Sample.env Sample.world)) = 2%Z.
Proof.
  split; [| split; [| split]].
  - refine (proj1 (slide_cap Sample.env Sample.world _) _). simpl; lia.
  - refine (proj1 (proj1 (proj2 (slide_cap Sample.env Sample.full [])) _)).
    simpl; lia.
  - refine (proj2 (proj1 (proj2 (slide_cap Sample.env Sample.full [])) _)).
    simpl; lia.
  - refine (proj2 (proj2 (slide_cap Sample.env Sample.world [])) _ _).
    + simpl; lia.
    + split; reflexivity.
Defined.

(** The cap sits in the buttons: [addNewSlide] itself, called on ten
    slides, appends an eleventh. *)
Lemma addNewSlide_unguarded :
  length (slides (editor (addNewSlide Sample.env Sample.full))) = 11.
Proof. reflexivity. Qed.

(** ** C3 *)

(** C3. [addNewSlide] first sends the creation request, and nothing but
    a console message can follow it in the trace.  When the request
    succeeds, the slide of the answer, which the store then holds, is
    appended and the previous length becomes the active index.  When
    the request fails in any way (no answer, or an answer that is not
    ok), the whole editor state, slides and active index included, is
    what it was; so the editor changes only if the request
    succeeded. *)
Theorem add_persists_first (env : Env) (w : World) :
  (exists rest,
      trace (addNewSlide env w)
      = trace w ++ fetch_POST_slides (projectId (editor w))
                                     (add_body (editor w)) :: rest
      /\ (rest = [] \/ rest = [console_error "Error creating slide:"]))
  /\ (add_succeeds env w ->
      exists slide,
        add_answer env w = Server.json_slide slide
        /\ In slide (Server.slides (db (addNewSlide env w)))
        /\ slides (editor (addNewSlide env w)) = slides (editor w) ++ [slide]
        /\ currentSlideIndex (editor (addNewSlide env w))
           = Z.of_nat (length (slides (editor w))))
  /\ (~ add_succeeds env w -> editor (addNewSlide env w) = editor w)
  /\ (editor (addNewSlide env w) <> editor w -> add_succeeds env w).
Proof.
  split; [| split; [| split]].
  - destruct (add_succeeds_dec env w) as [Ha | Hr].
    + destruct (addNewSlide_accepted env w Ha) as [_ [_ [_ ->]]].
      exists []. auto.
    + apply (addNewSlide_rejected env w Hr).
  - intros Ha.
    destruct (addNewSlide_accepted env w Ha) as [E1 [E2 [E3 _]]].
    eexists. split; [exact E1 |]. rewrite E2, E3.
    split; [apply in_or_app; right; now left | now split].
  - intros Hr. apply (addNewSlide_rejected env w Hr).
  - intros Hc. destruct (add_succeeds_dec env w) as [Ha | Hr];
      [assumption |].
    exfalso. apply Hc. apply (addNewSlide_rejected env w Hr).
Qed.

Lemma add_persists_first_witness :
  editor (addNewSlide Sample.offline Sample.world) = editor Sample.world
  /\ exists slide,
      add_answer Sample.env Sample.world = Server.json_slide slide
      /\ In slide (Server.slides (db (addNewSlide Sample.env Sample.world)))
      /\ slides (editor (addNewSlide Sample.env Sample.world))
         = slides (editor Sample.world) ++ [slide]
      /\ currentSlideIndex (editor (addNewSlide Sample.env Sample.world))
         = 2%Z.
Proof.
  split.
  - refine (proj1 (proj2 (proj2
              (add_persists_first Sample.offline Sample.world))) _).
    intros [H _]. discriminate.
  - refine (proj1 (proj2 (add_persists_first Sample.env Sample.world)) _).
    split; reflexivity.
Defined.

(** ** C4 *)



End EditorFacts.

(* ================================================================== *)
(** ** [char_count] follows [content] *)
(* ================================================================== *)

Module CountFacts.

Import Editor ServerFacts EditorFacts.

Lemma updatedSlide_counted (cs : Slide) (v : jsstring) (t : Timestamp) :
  Slide.content (updatedSlide cs v t) = v
  /\ Slide.char_count (updatedSlide cs v t) = length v.
Proof. now split. Qed.

Lemma updateSlide_counted (id : Id) (u : Slide) (l : list Slide) :
  Slide.counted u -> Forall Slide.counted l ->
  Forall Slide.counted (updateSlide id u l).
Proof.
  intros Hu Hl. unfold updateSlide. apply Forall_map.
  apply Forall_impl with (2 := Hl). intros s Hs.
  now destruct (String.eqb (Slide.id s) id).
Qed.

Lemma deleteSlide_counted (id : Id) (l : list Slide) :
  Forall Slide.counted l -> Forall Slide.counted (deleteSlide id l).
Proof.
  intros Hl. unfold deleteSlide. apply Forall_forall. intros s Hs.
  apply filter_In in Hs. destruct Hs as [Hs _].
  now apply (proj1 (Forall_forall _ _) Hl).
Qed.

Lemma duplicatedSlide_counted (cs : Slide) (env : Env) (n : nat) :
  Slide.counted cs -> Slide.counted (duplicatedSlide cs env n).
Proof. intros H. exact H. Qed.

(** The slides after a content change, slide by slide. *)
Lemma handleContentChange_map (env : Env) (v : jsstring) (w : World)
      (cs : Slide) :
  currentSlide (editor w) = Some cs ->
  slides (editor (handleContentChange env v w))
  = map (fun s =>
           if String.eqb (Slide.id s) (Slide.id cs)
           then {| Slide.id := Slide.id cs;
                   Slide.project_id := Slide.project_id cs;
                   Slide.slide_number := Slide.slide_number cs;
                   Slide.content := v;
                   Slide.title := Slide.title cs;
                   Slide.tone := Slide.tone cs;
                   Slide.char_count := length v;
                   Slide.created_at := Slide.created_at cs;
                   Slide.updated_at := now env |}
           else s)
        (slides (editor w)).
Proof.
  intros H. now rewrite handleContentChange_slides, H.
Qed.

(** The slide an enabled Duplicate appends carries the content and the
    count of the current slide. *)
Lemma clickDuplicate_copies (env : Env) (w : World) (cs : Slide) :
  currentSlide (editor w) = Some cs ->
  length (slides (editor w)) < 10 ->
  exists copy,
    slides (editor (clickDuplicate env w)) = slides (editor w) ++ [copy]
    /\ Slide.content copy = Slide.content cs
    /\ Slide.char_count copy = Slide.char_count cs.
Proof.
  intros Hcs Hlen. apply Nat.leb_gt in Hlen.
  unfold clickDuplicate, duplicate_disabled, duplicateSlide.
  rewrite Hcs, Hlen. eexists. split; [reflexivity | now split].
Qed.

(** *** The invariant under every schedule *)

Lemma editor_counted_kept (e e' : State) :
  slides e' = slides e -> currentSlide e' = currentSlide e ->
  editor_counted e -> editor_counted e'.
Proof.
  unfold editor_counted. now intros -> ->.
Qed.

Lemma editor_counted_appended (e e' : State) (x : Slide) :
  slides e' = slides e ++ [x] -> currentSlide e' = currentSlide e ->
  Slide.counted x -> editor_counted e -> editor_counted e'.
Proof.
  unfold editor_counted. intros -> -> Hx [Hs Hc]. split; [| assumption].
  apply Forall_app. split; [assumption | now constructor].
Qed.

Lemma handleContentChange_start_counted (env : Env) (v : jsstring)
      (w : World) :
  editor_counted (editor w) ->
  editor_counted (editor (fst (Async.handleContentChange_start env v w))).
Proof.
  intros [Hs Hc]. unfold Async.handleContentChange_start. simpl.
  destruct (currentSlide (editor w)) as [cs |] eqn:E; simpl;
    unfold editor_counted; simpl.
  - split; [apply updateSlide_counted; [reflexivity | assumption] |].
    intros c Hc'. apply Hc. congruence.
  - split; [assumption |]. intros c Hc'. apply Hc. congruence.
Qed.

Lemma start_counted (env : Env) (a : Action) (w : World) :
  editor_counted (editor w) ->
  editor_counted (editor (fst (Async.start env a w))).
Proof.
  intros Hw. pose proof Hw as [Hs Hc]. destruct a; simpl.
  - now destruct (add_disabled (editor w)).
  - unfold clickDuplicate. destruct (duplicate_disabled (editor w));
      [assumption |].
    unfold duplicateSlide.
    destruct (currentSlide (editor w)) as [cs |] eqn:E; [| assumption].
    apply (editor_counted_appended (editor w) _
             (duplicatedSlide cs env (length (slides (editor w)))));
      try assumption; try reflexivity.
    apply duplicatedSlide_counted. now apply Hc.
  - destruct (delete_disabled (editor w)); [assumption |].
    unfold Async.deleteCurrentSlide_start.
    destruct (currentSlide (editor w)); [| assumption].
    now destruct (1 <? length (slides (editor w))).
  - unfold clickPrevious.
    now destruct (currentSlideIndex (editor w) =? 0)%Z.
  - unfold clickNext.
    now destruct (currentSlideIndex (editor w)
                  =? Z.of_nat (length (slides (editor w))) - 1)%Z.
  - pose proof (handleContentChange_start_counted env value w Hw) as H.
    destruct (Async.handleContentChange_start env value w) as [w1 saving].
    exact H.
  - assumption.
  - unfold Async.handleFormatText_start.
    destruct (textarea (editor w)) as [ta |]; [| assumption].
    destruct (formatText (content (editor w)) (selectionStart ta)
                         (selectionEnd ta) format value) as [c p].
    pose proof (handleContentChange_start_counted env c w Hw) as H.
    destruct (Async.handleContentChange_start env c w) as [w1 saving].
    exact H.
  - unfold Async.handleApplyStyleSuggestion_start.
    destruct (textarea (editor w)); [| assumption].
    now apply handleContentChange_start_counted.
  - unfold effect_currentSlide.
    destruct ((0 <? length (slides (editor w)))
              && (currentSlideIndex (editor w)
                  <? Z.of_nat (length (slides (editor w))))%Z);
      [| assumption].
    split; [assumption |]. simpl.
    intros cs Hcs. apply at_index_In in Hcs.
    now apply (proj1 (Forall_forall _ _) Hs).
  - unfold effect_content.
    destruct (currentSlide (editor w)) as [cs |] eqn:E; [| assumption].
    unfold editor_counted. simpl. now rewrite E.
Qed.

(** The slide an answer to [addNewSlide] carries has empty content and
    count 0, whatever state the request was made in. *)
Lemma add_response_counted (env : Env) (e0 : State) (d : Server.Db)
      (w : World) :
  editor_counted (editor w) ->
  editor_counted
    (editor (add_response e0
               (snd (Server.POST d (storage env) (add_request env e0))) w)).
Proof.
  intros Hw. unfold add_response.
  destruct (Server.ok (snd (Server.POST d (storage env) (add_request env e0))))
    eqn:Hok; [| assumption].
  destruct (POST_ok _ _ _ Hok) as [userId [body [p [_ [Hj [_ E]]]]]].
  simpl in Hj. injection Hj as <-. rewrite E. simpl.
  apply (editor_counted_appended (editor w) _
           (Server.new_row (storage env) (projectId e0) (add_body e0)));
    try assumption; reflexivity.
Qed.

Lemma settle_counted (p : Async.Pending) (w : World) :
  editor_counted (editor w) ->
  editor_counted (editor (Async.settle p w)).
Proof.
  intros Hw. pose proof Hw as [Hs Hc]. destruct p as [env e0 | env cs i | env | p];
    simpl.
  - unfold Async.addNewSlide_settle. destruct (link env).
    + pose proof (add_response_counted env e0 (db w) w Hw) as H.
      destruct (Server.POST (db w) (storage env) (add_request env e0))
        as [db' r]. simpl in H.
      unfold add_response in *. destruct (Server.ok r); [| assumption].
      destruct (Server.payload r); assumption.
    + assumption.
    + now destruct (Server.POST (db w) (storage env) (add_request env e0)).
  - unfold Async.deleteCurrentSlide_settle.
    destruct (link env); simpl;
      (split; [now apply deleteSlide_counted | assumption]).
  - unfold Async.handleContentChange_settle. now destruct (link env).
  - assumption.
Qed.

Lemma async_step_counted (r : Async.Running) (o : Async.Occurrence) :
  editor_counted (editor (Async.world r)) ->
  editor_counted (editor (Async.world (Async.step r o))).
Proof.
  intros H. destruct o as [env a | k]; simpl.
  - pose proof (start_counted env a (Async.world r) H) as S.
    now destruct (Async.start env a (Async.world r)).
  - destruct (nth_error (Async.inflight r) k); [| assumption].
    now apply settle_counted.
Qed.

Lemma async_run_counted (os : list Async.Occurrence) (r : Async.Running) :
  editor_counted (editor (Async.world r)) ->
  editor_counted (editor (Async.world (Async.run r os))).
Proof.
  revert r. induction os as [| o os IH]; intros r H; simpl; [assumption |].
  apply IH. now apply async_step_counted.
Qed.

(** ** C6 *)

(** C6, as stated, fails on creation: Alice, owner of project [p1],
    submits the number 5 as content.  The request is accepted, the
    object handed to [insert] has no [char_count], and the row stored
    holds the text "5" with the count the column defaults to, 0. *)
Lemma number_content_not_counted :
  Server.status (snd (Server.POST Sample.store Sample.healthy Cases.five)) = 200
  /\ Server.Insert.char_count
       (Server.inserted "p1"
          {| Server.slide_number := Some 3;
             Server.content := Some (Server.JNumber 5);
             Server.title := None;
             Server.tone := None |}) = None
  /\ exists row,
      Server.slides (fst (Server.POST Sample.store Sample.healthy Cases.five))
      = Server.slides Sample.store ++ [row]
      /\ Slide.content row = lit "5"
      /\ Slide.char_count row = 0
      /\ ~ Slide.counted row.
Proof.
  split; [reflexivity | split; [reflexivity |]].
  eexists. split; [reflexivity |]. split; [reflexivity |].
  split; [reflexivity | discriminate].
Qed.

(** C6, amended.  On creation the endpoint stores a submitted string
    with [char_count] equal to its length, and for no content, or a
    falsy one, the empty string with count 0; it does not check that the
    content is a string.  In the editor, a content change puts the value
    and its length, together, in the slides that have the current
    slide's id and leaves the others as they are; Duplicate copies
    content and count together.  So once every slide the editor holds
    (the current slide included) has [char_count] equal to the length of
    its content, this stays so under every schedule of events and
    settling requests. *)
Theorem char_count_follows_content
        (r : Async.Running) (os : list Async.Occurrence) :
  (forall st id body s,
      Server.content body = Some (Server.JString s) ->
      Slide.content (Server.new_row st id body) = s
      /\ Slide.char_count (Server.new_row st id body) = length s)
  /\ (forall st id body,
         Server.content body = None
         \/ (exists v, Server.content body = Some v
                       /\ Server.truthy_json v = false) ->
         Slide.content (Server.new_row st id body) = []
         /\ Slide.char_count (Server.new_row st id body) = 0)
  /\ (forall env v w cs,
         currentSlide (editor w) = Some cs ->
         slides (editor (handleContentChange env v w))
         = map (fun s =>
                  if String.eqb (Slide.id s) (Slide.id cs)
                  then {| Slide.id := Slide.id cs;
                          Slide.project_id := Slide.project_id cs;
                          Slide.slide_number := Slide.slide_number cs;
                          Slide.content := v;
                          Slide.title := Slide.title cs;
                          Slide.tone := Slide.tone cs;
                          Slide.char_count := length v;
                          Slide.created_at := Slide.created_at cs;
                          Slide.updated_at := now env |}
                  else s)
               (slides (editor w)))
  /\ (forall env w cs,
         currentSlide (editor w) = Some cs ->
         length (slides (editor w)) < 10 ->
         exists copy,
           slides (editor (clickDuplicate env w)) = slides (editor w) ++ [copy]
           /\ Slide.content copy = Slide.content cs
           /\ Slide.char_count copy = Slide.char_count cs)
  /\ (editor_counted (editor (Async.world r)) ->
      editor_counted (editor (Async.world (Async.run r os)))).
Proof.
  split; [apply new_row_string |].
  split; [apply new_row_falsy |].
  split; [apply handleContentChange_map |].
  split; [apply clickDuplicate_copies |].
  apply async_run_counted.
Qed.

Lemma char_count_follows_content_witness :
  editor_counted
    (editor (Async.world
               (Async.run (Async.idle Sample.world)
                  [Async.Do Sample.env (Typing (lit "World!") 6);
                   Async.Do Sample.env Add;
                   Async.Do Sample.offline (Format "bold" None);
                   Async.Settle 1;
                   Async.Do Sample.env RunEffectCurrentSlide;
                   Async.Do Sample.env Duplicate;
                   Async.Settle 0; Async.Settle 0; Async.Settle 0])))
  /\ Slide.content (Server.new_row Sample.healthy "p1"
                      {| Server.slide_number := Some 3;
                         Server.content := Some (Server.JString (lit "Hi"));
                         Server.title := None;
                         Server.tone := None |}) = lit "Hi"
  /\ Slide.char_count (Server.new_row Sample.healthy "p1"
                         {| Server.slide_number := Some 3;
                            Server.content := Some (Server.JString (lit "Hi"));
                            Server.title := None;
                            Server.tone := None |}) = 2.
Proof.
  split.
  - refine (proj2 (proj2 (proj2 (proj2 (char_count_follows_content
                                          (Async.idle Sample.world) _)))) _).
    split.
    + repeat constructor.
    + intros cs [= <-]. reflexivity.
  - refine (proj1 (char_count_follows_content (Async.idle Sample.world) [])
                  Sample.healthy "p1"%string
                  {| Server.slide_number := Some 3;
                     Server.content := Some (Server.JString (lit "Hi"));
                     Server.title := None;
                     Server.tone := None |}
                  (lit "Hi") eq_refl).
Defined.

End CountFacts.

(* ================================================================== *)
(** ** Overlapping requests *)
(* ================================================================== *)

Module AsyncFacts.

Import Editor.

(** A handler run to its end is its first part followed at once by what
    it leaves outstanding. *)
Lemma handleContentChange_phases (env : Env) (v : jsstring) (w : World) :
  handleContentChange env v w
  = fold_left (fun w p => Async.settle p w)
              (snd (Async.handleContentChange_start env v w))
              (fst (Async.handleContentChange_start env v w)).
Proof.
  unfold handleContentChange, Async.handleContentChange_start. simpl.
  now destruct (currentSlide (editor w)).
Qed.

Lemma addNewSlide_phases (env : Env) (w : World) :
  addNewSlide env w
  = Async.addNewSlide_settle env (editor w)
      (fst (Async.addNewSlide_start env w)).
Proof. reflexivity. Qed.

Lemma deleteCurrentSlide_phases (env : Env) (w : World) :
  deleteCurrentSlide env w
  = fold_left (fun w p => Async.settle p w)
              (snd (Async.deleteCurrentSlide_start env w))
              (fst (Async.deleteCurrentSlide_start env w)).
Proof.
  unfold deleteCurrentSlide, Async.deleteCurrentSlide_start.
  destruct (currentSlide (editor w)); [| reflexivity].
  now destruct (1 <? length (slides (editor w))).
Qed.

(** Serving an event is handling it to its end. *)
Lemma serve_step (env : Env) (a : Action) (w : World) :
  Async.serve env a w = step w (env, a).
Proof.
  unfold Async.serve. destruct a; simpl; try reflexivity.
  - unfold clickAdd. now destruct (add_disabled (editor w)).
  - unfold clickDelete. destruct (delete_disabled (editor w));
      [reflexivity |].
    rewrite deleteCurrentSlide_phases.
    now destruct (Async.deleteCurrentSlide_start env w).
  - rewrite handleContentChange_phases.
    unfold Async.handleContentChange_start. simpl.
    destruct (currentSlide (editor w)); [| reflexivity].
    simpl. unfold Async.handleContentChange_settle.
    now destruct (link env).
  - unfold handleFormatText, Async.handleFormatText_start.
    destruct (textarea (editor w)) as [ta |]; [| reflexivity].
    destruct (formatText (content (editor w)) (selectionStart ta)
                         (selectionEnd ta) format value) as [c p].
    rewrite handleContentChange_phases.
    destruct (Async.handleContentChange_start env c w) as [w1 saving].
    simpl. now rewrite fold_left_app.
  - unfold handleApplyStyleSuggestion, Async.handleApplyStyleSuggestion_start.
    destruct (textarea (editor w)); [| reflexivity].
    rewrite handleContentChange_phases.
    now destruct (Async.handleContentChange_start env _ w).
Qed.

Lemma run_served_run (evs : list (Env * Action)) (w : World) :
  Async.run_served w evs = run w evs.
Proof.
  revert w. induction evs as [| [env a] evs IH]; intros w; simpl;
    [reflexivity |].
  now rewrite serve_step, IH.
Qed.

(** ** C1 *)

(** C1.  The bound fails when two requests overlap.  With nine slides,
    Add is clicked, and clicked again before the first request is
    answered: both clicks find the button enabled, both requests
    succeed, and when they have settled the collection holds eleven
    slides, the two new ones both numbered 10, and the active index is 9
    although the last slide is at position 10. *)
Theorem overlapping_adds_exceed_cap :
  let r := Async.run (Async.idle Cases.nine)
             [Async.Do Sample.env Add; Async.Do Cases.again Add;
              Async.Settle 0; Async.Settle 0] in
  length (slides (editor Cases.nine)) = 9
  /\ length (slides (editor (Async.world r))) = 11
  /\ map Slide.slide_number (skipn 9 (slides (editor (Async.world r))))
     = [10; 10]
  /\ currentSlideIndex (editor (Async.world r)) = 9%Z
  /\ Async.inflight r = []
  /\ length (Server.slides (db (Async.world r)))
     = length (Server.slides (db Cases.nine)) + 2.
Proof.
  cbv zeta. repeat split; reflexivity.
Qed.

End AsyncFacts.


(* ================================================================== *)
(** ** The other formatting commands *)
(* ================================================================== *)

Module FormatMore.

Import Editor FormatFacts.

Lemma italic_selection (B : jsstring) (start end_ : nat) (v : option jsstring) :
  start < end_ <= length B ->
  formatText B start end_ "italic" v
  = (spliced B start end_ (lit "*" ++ slice B start end_ ++ lit "*"),
     end_ + 2).
Proof.
  intros H. unfold formatText, spliced. simpl String.eqb. cbv iota.
  rewrite (substring_slice B start end_) by lia.
  rewrite (substring_prefix B start), substring_from_skipn by lia.
  now rewrite slice_truthy by lia.
Qed.

Lemma italic_caret (B : jsstring) (start : nat) (v : option jsstring) :
  start <= length B ->
  formatText B start start "italic" v
  = (spliced B start start (lit "**"), start + 1).
Proof.
  intros H. unfold formatText, spliced. simpl String.eqb. cbv iota.
  rewrite (substring_slice B start start) by lia.
  rewrite (substring_prefix B start), substring_from_skipn by lia.
  now rewrite slice_empty.
Qed.

Lemma insert_value (B : jsstring) (start end_ : nat) (c : codeunit)
      (x : jsstring) :
  start <= end_ <= length B ->
  formatText B start end_ "insert" (Some (c :: x))
  = (spliced B start end_ (c :: x), start + length (c :: x)).
Proof.
  intros H. unfold formatText, spliced. simpl String.eqb. cbv iota.
  now rewrite (substring_prefix B start), substring_from_skipn by lia.
Qed.

(** X1. With a selection [start, end_) inside the buffer, italic wraps a
    non-empty selection in single asterisks and returns the caret
    [end_ + 2]; on an empty selection it splices in two asterisks and
    returns the caret between them, [start + 1]. *)
Theorem italic_command (B : jsstring) (start end_ : nat) (v : option jsstring) :
  start <= end_ <= length B ->
  (start < end_ ->
   formatText B start end_ "italic" v
   = (spliced B start end_ (lit "*" ++ slice B start end_ ++ lit "*"),
      end_ + 2))
  /\ (start = end_ ->
      formatText B start end_ "italic" v
      = (spliced B start start (lit "**"), start + 1)).
Proof.
  intros H. split.
  - intros Hlt. apply italic_selection. lia.
  - intros <-. apply italic_caret. lia.
Qed.

Lemma italic_command_witness :
  formatText (lit "hello world") 0 5 "italic" None
  = (lit "*hello* world", 7)
  /\ formatText [] 0 0 "italic" None = (lit "**", 1).
Proof.
  split.
  - refine (proj1 (italic_command (lit "hello world") 0 5 None _) _);
      simpl; lia.
  - refine (proj2 (italic_command [] 0 0 None _) _);
      [simpl; lia | reflexivity].
Defined.

(** X2. With a selection [start, end_) inside the buffer, insert with a
    non-empty value replaces the selection by the value and returns the
    caret right after it; with no value, or the empty string, the buffer
    is returned as it is with the caret at [start]. *)
Theorem insert_command (B value : jsstring) (start end_ : nat) :
  start <= end_ <= length B ->
  (value <> [] ->
   formatText B start end_ "insert" (Some value)
   = (spliced B start end_ value, start + length value))
  /\ formatText B start end_ "insert" (Some []) = (B, start)
  /\ formatText B start end_ "insert" None = (B, start).
Proof.
  intros H. split; [| split; reflexivity].
  intros Hv. destruct value as [| c v]; [contradiction |].
  now apply insert_value.
Qed.

Lemma insert_command_witness :
  formatText (lit "hello world") 6 11 "insert" (Some (lit "there"))
  = (lit "hello there", 11).
Proof.
  refine (proj1 (insert_command (lit "hello world") (lit "there") 6 11 _) _).
  - simpl; lia.
  - discriminate.
Defined.

(** A command without a case leaves buffer and caret alone. *)
Lemma unknown_format (B : jsstring) (start end_ : nat) (format : string)
      (v : option jsstring) :
  known_command format = false ->
  formatText B start end_ format v = (B, start).
Proof.
  unfold known_command, formatText. intros H.
  destruct (String.eqb format "bold"); [discriminate |].
  destruct (String.eqb format "italic"); [discriminate |].
  destruct (String.eqb format "hashtag"); [discriminate |].
  destruct (String.eqb format "mention"); [discriminate |].
  destruct (String.eqb format "insert"); [discriminate | reflexivity].
Qed.

Lemma spliced_length (B inserted : jsstring) (start end_ : nat) :
  start <= end_ <= length B ->
  length (spliced B start end_ inserted)
  = start + length inserted + (length B - end_).
Proof.
  intros H. unfold spliced.
  rewrite !length_app, length_firstn, length_skipn. lia.
Qed.

(** Every command splices: the text around the selection is kept and
    the caret lands in the spliced text. *)
Lemma formatText_spliced (B : jsstring) (start end_ : nat)
        (format : string) (v : option jsstring) :
  start <= end_ <= length B ->
  exists inserted,
    fst (formatText B start end_ format v) = spliced B start end_ inserted
    /\ start <= snd (formatText B start end_ format v)
       <= start + length inserted
    /\ snd (formatText B start end_ format v)
       <= length (fst (formatText B start end_ format v)).
Proof.
  intros H.
  assert (forall inserted caret,
             formatText B start end_ format v
             = (spliced B start end_ inserted, caret) ->
             start <= caret <= start + length inserted ->
             exists inserted,
               fst (formatText B start end_ format v)
               = spliced B start end_ inserted
               /\ start <= snd (formatText B start end_ format v)
                  <= start + length inserted
               /\ snd (formatText B start end_ format v)
                  <= length (fst (formatText B start end_ format v)))
    as Found.
  { intros inserted caret E Hc. exists inserted. rewrite E. simpl.
    rewrite spliced_length by assumption. repeat split; lia. }
  assert (formatText B start end_ format v = (B, start) ->
          exists inserted,
            fst (formatText B start end_ format v)
            = spliced B start end_ inserted
            /\ start <= snd (formatText B start end_ format v)
               <= start + length inserted
            /\ snd (formatText B start end_ format v)
               <= length (fst (formatText B start end_ format v)))
    as Kept.
  { intros E. apply (Found (slice B start end_) start); [| lia].
    rewrite E. unfold spliced. now rewrite split_at_selection by lia. }
  pose proof (slice_length B start end_ H) as Ls.
  destruct (known_command format) eqn:K.
  2:{ apply Kept. now apply unknown_format. }
  unfold known_command in K.
  destruct (String.eqb_spec format "bold") as [-> | _].
  { destruct (Nat.eq_dec start end_) as [<- | Hne].
    - eapply Found; [apply bold_caret; lia | simpl; lia].
    - eapply Found; [apply bold_selection; lia |].
      rewrite !length_app, Ls. simpl. lia. }
  destruct (String.eqb_spec format "italic") as [-> | _].
  { destruct (Nat.eq_dec start end_) as [<- | Hne].
    - eapply Found; [apply italic_caret; lia | simpl; lia].
    - eapply Found; [apply italic_selection; lia |].
      rewrite !length_app, Ls. simpl. lia. }
  destruct (String.eqb_spec format "hashtag") as [-> | _].
  { eapply Found; [apply hashtag_format; lia |].
    rewrite length_app. simpl. lia. }
  destruct (String.eqb_spec format "mention") as [-> | _].
  { eapply Found; [apply mention_format; lia |].
    rewrite length_app. simpl. lia. }
  destruct (String.eqb_spec format "insert") as [-> | _]; [| discriminate].
  destruct v as [[| c x] |].
  - apply Kept. reflexivity.
  - eapply Found; [now apply insert_value | lia].
  - apply Kept. reflexivity.
Qed.

(** X3. Whatever the command and its value, with a selection
    [start, end_) inside the buffer the result is the buffer with the
    selection replaced by some text: what precedes and what follows the
    selection is kept.  The caret returned lies between [start] and the
    end of that text, hence inside the new buffer. *)
Theorem format_keeps_surroundings (B : jsstring) (start end_ : nat)
        (format : string) (v : option jsstring) :
  start <= end_ <= length B ->
  exists inserted,
    fst (formatText B start end_ format v) = spliced B start end_ inserted
    /\ start <= snd (formatText B start end_ format v)
       <= start + length inserted
    /\ snd (formatText B start end_ format v)
       <= length (fst (formatText B start end_ format v)).
Proof. apply formatText_spliced. Qed.

Lemma format_keeps_surroundings_witness :
  exists inserted,
    fst (formatText (lit "hello world") 6 11 "hashtag" None)
    = spliced (lit "hello world") 6 11 inserted
    /\ 6 <= snd (formatText (lit "hello world") 6 11 "hashtag" None)
       <= 6 + length inserted
    /\ snd (formatText (lit "hello world") 6 11 "hashtag" None)
       <= length (fst (formatText (lit "hello world") 6 11 "hashtag" None)).
Proof.
  refine (format_keeps_surroundings (lit "hello world") 6 11 "hashtag" None _).
  simpl; lia.
Defined.

End FormatMore.


(* ================================================================== *)
(** ** The content-change pipeline *)
(* ================================================================== *)

Module PipelineMore.

Import Editor FormatFacts FormatMore PipelineFacts EditorFacts.

Lemma handleContentChange_textarea (env : Env) (v : jsstring) (w : World) :
  textarea (editor (handleContentChange env v w)) = textarea (editor w).
Proof.
  unfold handleContentChange. simpl.
  destruct (currentSlide (editor w)); [| reflexivity].
  destruct (link env); reflexivity.
Qed.

(** What a content change sends and logs. *)
Lemma handleContentChange_trace (env : Env) (v : jsstring) (w : World) :
  trace (handleContentChange env v w)
  = trace w
    ++ match currentSlide (editor w) with
       | None => []
       | Some cs =>
           fetch_PUT_slide (Slide.id cs) v (Slide.tone cs)
           :: match link env with
              | delivered => []
              | _ => [console_error "Auto-save failed:"]
              end
       end.
Proof.
  unfold handleContentChange. simpl.
  destruct (currentSlide (editor w)); [| now rewrite app_nil_r].
  destruct (link env); simpl; now rewrite <- ?app_assoc.
Qed.

(** X4. A content change while a slide is current puts the value in the
    buffer and in that slide in memory whatever becomes of the save,
    sends one PUT with the value and the slide's tone, leaves the saving
    flag off, and records the time of the save only when the request
    came back; a failed save adds a console message and nothing else.
    While no slide is current only the buffer changes and nothing is
    sent. *)
Theorem content_change_pipeline (env : Env) (v : jsstring) (w : World) :
  (forall cs,
      currentSlide (editor w) = Some cs ->
      let w' := handleContentChange env v w in
      content (editor w') = v
      /\ slides (editor w')
         = updateSlide (Slide.id cs) (updatedSlide cs v (now env))
                       (slides (editor w))
      /\ isAutoSaving (editor w') = false
      /\ lastSaved (editor w')
         = match link env with
           | delivered => Some (later env)
           | _ => lastSaved (editor w)
           end
      /\ trace w'
         = trace w
           ++ fetch_PUT_slide (Slide.id cs) v (Slide.tone cs)
           :: match link env with
              | delivered => []
              | _ => [console_error "Auto-save failed:"]
              end
      /\ db w' = db w)
  /\ (currentSlide (editor w) = None ->
      handleContentChange env v w = update (setContent v) w).
Proof.
  split.
  - intros cs Hcs w'. unfold w'.
    rewrite handleContentChange_content, handleContentChange_slides,
      handleContentChange_trace, Hcs.
    destruct (handleContentChange_frame env v w) as [_ [_ ->]].
    repeat split.
    + unfold handleContentChange. simpl. rewrite Hcs.
      now destruct (link env).
    + unfold handleContentChange. simpl. rewrite Hcs.
      now destruct (link env).
  - intros Hn. unfold handleContentChange. simpl. now rewrite Hn.
Qed.

Lemma content_change_pipeline_witness :
  slides (editor (handleContentChange Sample.offline (lit "World!")
                                      Sample.world))
  = [Sample.first;
     updatedSlide Sample.second (lit "World!") (now Sample.offline)]
  /\ lastSaved (editor (handleContentChange Sample.offline (lit "World!")
                                           Sample.world)) = None
  /\ trace (handleContentChange Sample.offline (lit "World!") Sample.world)
     = [fetch_PUT_slide "s2" (lit "World!") None;
        console_error "Auto-save failed:"].
Proof.
  destruct (proj1 (content_change_pipeline Sample.offline (lit "World!")
                                           Sample.world)
                  Sample.second eq_refl) as [_ [E1 [_ [E2 [E3 _]]]]].
  split; [exact E1 | split; [exact E2 | exact E3]].
Defined.

(** With distinct ids, [updateSlide] of the id of the slide at position
    [i] replaces exactly that position. *)
Lemma updateSlide_at (l : list Slide) (i : nat) (cs u : Slide) :
  NoDup (map Slide.id l) -> nth_error l i = Some cs ->
  updateSlide (Slide.id cs) u l = replaced i u l.
Proof.
  unfold updateSlide, replaced. revert i.
  induction l as [| x l IH]; intros i Hnd Hi.
  - destruct i; discriminate.
  - inversion Hnd as [| ? ? Hx Hnd']; subst.
    destruct i as [| i]; simpl in Hi.
    + injection Hi as ->. simpl. rewrite String.eqb_refl. f_equal.
      rewrite <- (map_id l) at 2. apply map_ext_in. intros y Hy.
      destruct (String.eqb_spec (Slide.id y) (Slide.id cs)) as [E | E];
        [| reflexivity].
      exfalso. apply Hx. rewrite <- E. now apply in_map.
    + simpl.
      destruct (String.eqb_spec (Slide.id x) (Slide.id cs)) as [E | E].
      * exfalso. apply Hx. rewrite E. apply in_map.
        now apply nth_error_In with i.
      * f_equal. now apply IH.
Qed.

Lemma updateSlide_ids (cs : Slide) (v : jsstring) (t : Timestamp)
      (l : list Slide) :
  map Slide.id (updateSlide (Slide.id cs) (updatedSlide cs v t) l)
  = map Slide.id l.
Proof.
  unfold updateSlide. rewrite map_map. apply map_ext. intros s.
  destruct (String.eqb_spec (Slide.id s) (Slide.id cs)) as [E | E];
    [now rewrite E | reflexivity].
Qed.

Lemma handleContentChange_ids (env : Env) (v : jsstring) (w : World) :
  slide_ids (editor (handleContentChange env v w)) = slide_ids (editor w).
Proof.
  unfold slide_ids. rewrite handleContentChange_slides.
  destruct (currentSlide (editor w)); [apply updateSlide_ids | reflexivity].
Qed.

(** X5. A content change never adds, removes or reorders slides: the
    sequence of slide ids is the same afterwards, and a slide whose id is
    not the current slide's is untouched.  When ids are distinct, the
    active index [i] is a position and the current slide is the slide
    there, the collection afterwards is the old one with position [i]
    holding the new content and its length and, but for [updated_at],
    the rest of that slide as it was. *)
Theorem content_change_touches_active (env : Env) (v : jsstring) (w : World)
        (i : nat) :
  let w' := handleContentChange env v w in
  slide_ids (editor w') = slide_ids (editor w)
  /\ (forall cs s,
         currentSlide (editor w) = Some cs -> In s (slides (editor w)) ->
         Slide.id s <> Slide.id cs -> In s (slides (editor w')))
  /\ (NoDup (slide_ids (editor w)) ->
      currentSlideIndex (editor w) = Z.of_nat i ->
      i < length (slides (editor w)) ->
      settled (editor w) ->
      exists cs,
        nth_error (slides (editor w)) i = Some cs
        /\ slides (editor w')
           = replaced i
               {| Slide.id := Slide.id cs;
                  Slide.project_id := Slide.project_id cs;
                  Slide.slide_number := Slide.slide_number cs;
                  Slide.content := v;
                  Slide.title := Slide.title cs;
                  Slide.tone := Slide.tone cs;
                  Slide.char_count := length v;
                  Slide.created_at := Slide.created_at cs;
                  Slide.updated_at := now env |}
               (slides (editor w))).
Proof.
  intros w'. unfold w'. split; [apply handleContentChange_ids |]. split.
  - intros cs s Hcs Hin Hne. rewrite handleContentChange_slides, Hcs.
    unfold updateSlide. apply in_map_iff. exists s. split; [| assumption].
    destruct (String.eqb_spec (Slide.id s) (Slide.id cs)); [contradiction |].
    reflexivity.
  - intros Hnd Hi Hlt Hs. unfold settled in Hs.
    rewrite Hi, at_index_nat in Hs.
    destruct (nth_error (slides (editor w)) i) as [cs |] eqn:Hn.
    2:{ apply nth_error_None in Hn. lia. }
    exists cs. split; [reflexivity |].
    rewrite handleContentChange_slides, Hs.
    now apply updateSlide_at.
Qed.

Lemma content_change_touches_active_witness :
  exists cs,
    nth_error (slides (editor Sample.world)) 1 = Some cs
    /\ slides (editor (handleContentChange Sample.env (lit "Hi") Sample.world))
       = replaced 1
           {| Slide.id := Slide.id cs;
              Slide.project_id := Slide.project_id cs;
              Slide.slide_number := Slide.slide_number cs;
              Slide.content := lit "Hi";
              Slide.title := Slide.title cs;
              Slide.tone := Slide.tone cs;
              Slide.char_count := 2;
              Slide.created_at := Slide.created_at cs;
              Slide.updated_at := now Sample.env |}
           (slides (editor Sample.world)).
Proof.
  refine (proj2 (proj2 (content_change_touches_active
                          Sample.env (lit "Hi") Sample.world 1))
                _ eq_refl _ eq_refl).
  - simpl. constructor.
    + intros [H | []]. discriminate.
    + constructor; [intros [] | constructor].
  - simpl; lia.
Defined.

(** X6. With the textarea mounted and its selection inside the buffer, a
    format command leaves the editor with the buffer that [formatText]
    computes and with the selection collapsed at the caret it returns. *)
Theorem format_restores_caret (env : Env) (format : string)
        (v : option jsstring) (w : World) (ta : Textarea) :
  textarea (editor w) = Some ta ->
  selectionStart ta <= selectionEnd ta <= length (content (editor w)) ->
  let r := formatText (content (editor w)) (selectionStart ta)
                      (selectionEnd ta) format v in
  content (editor (handleFormatText env format v w)) = fst r
  /\ textarea (editor (handleFormatText env format v w))
     = Some {| selectionStart := snd r; selectionEnd := snd r |}.
Proof.
  intros Hta Hsel r.
  destruct (formatText_spliced (content (editor w)) (selectionStart ta)
              (selectionEnd ta) format v Hsel) as [inserted [_ [_ Hc]]].
  fold r in Hc. unfold handleFormatText. rewrite Hta. fold r.
  destruct r as [newContent newCursorPos]. simpl in Hc. simpl.
  rewrite handleContentChange_content, handleContentChange_textarea, Hta.
  split; [reflexivity |]. now rewrite Nat.min_l.
Qed.

Lemma format_restores_caret_witness :
  content (editor (handleFormatText Sample.env "bold" None Sample.world))
  = lit "****World"
  /\ textarea (editor (handleFormatText Sample.env "bold" None Sample.world))
     = Some {| selectionStart := 2; selectionEnd := 2 |}.
Proof.
  refine (format_restores_caret Sample.env "bold" None Sample.world
            {| selectionStart := 0; selectionEnd := 0 |} eq_refl _).
  simpl; lia.
Defined.

(** X7. A command the [switch] has no case for changes neither buffer
    nor slides' contents, yet it goes through the content-change
    pipeline: with a current slide, a PUT carrying the unchanged buffer
    is sent. *)
Theorem unknown_command_saves (env : Env) (format : string)
        (v : option jsstring) (w : World) (ta : Textarea) (cs : Slide) :
  known_command format = false ->
  textarea (editor w) = Some ta ->
  currentSlide (editor w) = Some cs ->
  content (editor (handleFormatText env format v w)) = content (editor w)
  /\ exists rest,
      trace (handleFormatText env format v w)
      = trace w
        ++ fetch_PUT_slide (Slide.id cs) (content (editor w)) (Slide.tone cs)
        :: rest.
Proof.
  intros K Hta Hcs. unfold handleFormatText. rewrite Hta.
  rewrite (unknown_format _ _ _ _ _ K). simpl.
  rewrite handleContentChange_content, handleContentChange_trace, Hcs.
  split; [reflexivity | eauto].
Qed.

Lemma unknown_command_saves_witness :
  exists rest,
    trace (handleFormatText Sample.env "underline" None Sample.world)
    = fetch_PUT_slide "s2" (lit "World") None :: rest.
Proof.
  refine (proj2 (unknown_command_saves Sample.env "underline" None Sample.world
                   {| selectionStart := 0; selectionEnd := 0 |} Sample.second
                   eq_refl eq_refl eq_refl)).
Defined.

End PipelineMore.


(* ================================================================== *)
(** ** Emphasis and fallback suggestions *)
(* ================================================================== *)

Module SuggestionMore.

Import Editor SuggestionFacts.

Lemma startsWith_prefix (p s : jsstring) :
  startsWith s p = true -> s = p ++ skipn (length p) s.
Proof.
  revert s. induction p as [| c p IH]; intros s H; [reflexivity |].
  destruct s as [| d s]; [discriminate |].
  simpl in H. apply andb_prop in H. destruct H as [Hc Hp].
  apply N.eqb_eq in Hc. subst d. simpl. f_equal. now apply IH.
Qed.

Lemma indexOf_unfold (s p : jsstring) :
  indexOf s p
  = if startsWith s p then Some 0
    else match s with
         | [] => None
         | _ :: s' => option_map S (indexOf s' p)
         end.
Proof. now destruct s. Qed.

(** [indexOf] returns a position where the pattern occurs, and the
    pattern occurs at no earlier position. *)
Lemma indexOf_first (p s : jsstring) (n : nat) :
  indexOf s p = Some n ->
  s = firstn n s ++ p ++ skipn (n + length p) s
  /\ forall m, m < n -> startsWith (skipn m s) p = false.
Proof.
  revert n. induction s as [| c s IH]; intros n; rewrite indexOf_unfold.
  - destruct (startsWith [] p) eqn:E; [| discriminate].
    intros [= <-]. split; [| intros m Hm; lia].
    now apply startsWith_prefix.
  - destruct (startsWith (c :: s) p) eqn:E.
    + intros [= <-]. split; [| intros m Hm; lia].
      now apply startsWith_prefix.
    + destruct (indexOf s p) as [k |] eqn:Ek; [| discriminate].
      simpl. intros [= <-]. destruct (IH k eq_refl) as [E1 E2].
      split.
      * simpl. f_equal. exact E1.
      * intros [| m] Hm; [exact E | simpl; apply E2; lia].
Qed.

Lemma includes_false (s p : jsstring) :
  includes s p = false -> indexOf s p = None.
Proof. unfold includes. now destruct (indexOf s p). Qed.

(** X8. An emphasis suggestion whose text holds no dollar sign and whose
    [original] occurs in the buffer replaces the first occurrence of
    [original], and only that one: at the position [indexOf] finds, the
    buffer reads [original], no earlier position starts an occurrence,
    and the result is the buffer with that occurrence exchanged for the
    suggestion. *)
Theorem emphasis_replaces_first (B : jsstring) (s : StyleSuggestion)
        (pos : nat) :
  type s = "emphasis"%string ->
  ~ In DOLLAR (suggestion s) ->
  indexOf B (original s) = Some pos ->
  B = firstn pos B ++ original s ++ skipn (pos + length (original s)) B
  /\ (forall m, m < pos -> startsWith (skipn m B) (original s) = false)
  /\ applyStyleSuggestion B s
     = firstn pos B ++ suggestion s ++ skipn (pos + length (original s)) B.
Proof.
  intros Ht Hd Hi. destruct (indexOf_first _ _ _ Hi) as [E1 E2].
  split; [exact E1 | split; [exact E2 |]].
  unfold applyStyleSuggestion. rewrite Ht. simpl String.eqb. cbv iota.
  unfold replace. rewrite Hi. now rewrite GetSubstitution_plain.
Qed.

Lemma emphasis_replaces_first_witness :
  applyStyleSuggestion (lit "big sale, big news")
    {| type := "emphasis"; original := lit "big"; suggestion := lit "HUGE" |}
  = lit "HUGE sale, big news".
Proof.
  refine (proj2 (proj2 (emphasis_replaces_first (lit "big sale, big news")
            {| type := "emphasis"; original := lit "big";
               suggestion := lit "HUGE" |} 0 eq_refl _ eq_refl))).
  simpl. intros H.
  repeat (destruct H as [H | H]; [discriminate |]). exact H.
Defined.

(** X9. When [original] does not occur in the buffer, an emphasis
    suggestion leaves the buffer as it is and its text is dropped,
    whereas a suggestion of a type without a case of its own is appended
    to the trimmed buffer after one space; the latter also happens when
    its [original] is empty. *)
Theorem original_not_found (B : jsstring) (s : StyleSuggestion) :
  (type s = "emphasis"%string -> includes B (original s) = false ->
   applyStyleSuggestion B s = B)
  /\ (known_type (type s) = false ->
      original s = [] \/ includes B (original s) = false ->
      applyStyleSuggestion B s = trim B ++ lit " " ++ suggestion s).
Proof.
  split.
  - intros Ht Hi. unfold applyStyleSuggestion. rewrite Ht.
    simpl String.eqb. cbv iota. unfold replace.
    now rewrite (includes_false _ _ Hi).
  - intros K H. unfold known_type in K. unfold applyStyleSuggestion.
    destruct (String.eqb (type s) "emphasis"); [discriminate |].
    destruct (String.eqb (type s) "hashtag"); [discriminate |].
    destruct (String.eqb (type s) "emoji"); [discriminate |].
    destruct (String.eqb (type s) "mention"); [discriminate |].
    destruct (String.eqb (type s) "structure"); [discriminate |].
    simpl orb. cbv iota.
    destruct H as [-> | ->]; [reflexivity |].
    now rewrite andb_false_r.
Qed.

Lemma original_not_found_witness :
  applyStyleSuggestion (lit "New drop ")
    {| type := "emphasis"; original := lit "sale"; suggestion := lit "SALE" |}
  = lit "New drop "
  /\ applyStyleSuggestion (lit "New drop ")
       {| type := "tone"; original := lit "sale"; suggestion := lit "SALE" |}
     = lit "New drop SALE".
Proof.
  split.
  - refine (proj1 (original_not_found (lit "New drop ")
              {| type := "emphasis"; original := lit "sale";
                 suggestion := lit "SALE" |}) eq_refl eq_refl).
  - refine (proj2 (original_not_found (lit "New drop ")
              {| type := "tone"; original := lit "sale";
                 suggestion := lit "SALE" |}) eq_refl _).
    right. reflexivity.
Defined.

End SuggestionMore.


(* ================================================================== *)
(** ** Navigation, duplication and deletion *)
(* ================================================================== *)

Module CollectionMore.

Import Editor EditorFacts PipelineMore.

(** X10. While the active index points at a slide, Previous and Next
    keep it pointing at a slide: Previous moves it down by one and stays
    at 0, Next moves it up by one and stays at the last position; there
    is no wrap-around, a click at the boundary changes nothing at all,
    and the slides are never touched. *)
Theorem navigation_clamps (w : World) :
  index_valid (editor w) ->
  let i := currentSlideIndex (editor w) in
  let n := Z.of_nat (length (slides (editor w))) in
  index_valid (editor (clickPrevious w))
  /\ index_valid (editor (clickNext w))
  /\ currentSlideIndex (editor (clickPrevious w))
     = (if (i =? 0)%Z then 0 else i - 1)%Z
  /\ currentSlideIndex (editor (clickNext w))
     = (if (i =? n - 1)%Z then n - 1 else i + 1)%Z
  /\ (i = 0%Z -> clickPrevious w = w)
  /\ (i = (n - 1)%Z -> clickNext w = w)
  /\ slides (editor (clickPrevious w)) = slides (editor w)
  /\ slides (editor (clickNext w)) = slides (editor w).
Proof.
  intros H. cbv zeta. unfold index_valid, clickPrevious, clickNext in *.
  cbv zeta.
  destruct (Z.eqb_spec (currentSlideIndex (editor w)) 0) as [E0 | N0];
    destruct (Z.eqb_spec (currentSlideIndex (editor w))
                         (Z.of_nat (length (slides (editor w))) - 1))
      as [E1 | N1]; simpl;
    repeat split; try assumption; try reflexivity; try lia.
Qed.

Lemma navigation_clamps_witness :
  currentSlideIndex (editor (clickPrevious Sample.world)) = 0%Z
  /\ clickNext Sample.world = Sample.world.
Proof.
  assert (index_valid (editor Sample.world)) as H
      by (unfold index_valid; simpl; lia).
  destruct (navigation_clamps Sample.world H) as [_ [_ [E [_ [_ [F _]]]]]].
  split; [exact E | apply F; reflexivity].
Defined.

(** X11. With no slides and the index at 0 the Next button is not
    disabled, and a click on it sets the active index to -1. *)
Theorem next_on_empty_collection (w : World) :
  slides (editor w) = [] -> currentSlideIndex (editor w) = 0%Z ->
  currentSlideIndex (editor (clickNext w)) = (-1)%Z.
Proof.
  intros Hs Hi. unfold clickNext. rewrite Hs, Hi. reflexivity.
Qed.

Lemma next_on_empty_collection_witness :
  currentSlideIndex
    (editor (clickNext
               (update (fun e => with_slides [] (setCurrentSlideIndex 0 e))
                       Sample.world))) = (-1)%Z.
Proof.
  refine (next_on_empty_collection
            (update (fun e => with_slides [] (setCurrentSlideIndex 0 e))
                    Sample.world) eq_refl eq_refl).
Defined.

(** An enabled Duplicate appends [duplicatedSlide] and activates it. *)
Lemma clickDuplicate_enabled (env : Env) (w : World) (cs : Slide) :
  currentSlide (editor w) = Some cs ->
  length (slides (editor w)) < 10 ->
  slides (editor (clickDuplicate env w))
  = slides (editor w)
    ++ [duplicatedSlide cs env (length (slides (editor w)))]
  /\ currentSlideIndex (editor (clickDuplicate env w))
     = Z.of_nat (length (slides (editor w))).
Proof.
  intros Hcs Hlen. apply Nat.leb_gt in Hlen.
  unfold clickDuplicate, duplicate_disabled, duplicateSlide.
  rewrite Hcs, Hlen. split; reflexivity.
Qed.

Lemma clickDuplicate_silent (env : Env) (w : World) :
  db (clickDuplicate env w) = db w /\ trace (clickDuplicate env w) = trace w.
Proof.
  unfold clickDuplicate, duplicate_disabled, duplicateSlide.
  destruct (currentSlide (editor w)); [| now split].
  destruct (10 <=? length (slides (editor w))); now split.
Qed.

(** X12. Duplicate is local: whatever the state, a click on it sends no
    request, writes nothing to the console and leaves the store as it
    is.  When it is enabled, the collection gains one slide at the end,
    a copy of the current slide (project, content, title, tone,
    character count) with the generated id, numbered the previous
    length plus one and stamped with the clock, and the previous length
    becomes the active index. *)
Theorem duplicate_is_local (env : Env) (w : World) :
  db (clickDuplicate env w) = db w
  /\ trace (clickDuplicate env w) = trace w
  /\ forall cs,
      currentSlide (editor w) = Some cs ->
      length (slides (editor w)) < 10 ->
      slides (editor (clickDuplicate env w))
      = slides (editor w)
        ++ [ {| Slide.id := generateId env;
                Slide.project_id := Slide.project_id cs;
                Slide.slide_number := length (slides (editor w)) + 1;
                Slide.content := Slide.content cs;
                Slide.title := Slide.title cs;
                Slide.tone := Slide.tone cs;
                Slide.char_count := Slide.char_count cs;
                Slide.created_at := now env;
                Slide.updated_at := later env |} ]
      /\ currentSlideIndex (editor (clickDuplicate env w))
         = Z.of_nat (length (slides (editor w))).
Proof.
  destruct (clickDuplicate_silent env w) as [E1 E2].
  split; [exact E1 | split; [exact E2 |]].
  intros cs Hcs Hlen. now apply clickDuplicate_enabled.
Qed.

Lemma duplicate_is_local_witness :
  length (slides (editor (clickDuplicate Sample.env Sample.world))) = 3
  /\ currentSlideIndex (editor (clickDuplicate Sample.env Sample.world)) = 2%Z.
Proof.
  destruct (proj2 (proj2 (duplicate_is_local Sample.env Sample.world))
                  Sample.second eq_refl) as [E1 E2].
  - simpl; lia.
  - split; [now rewrite E1 | exact E2].
Defined.

Lemma deleteCurrentSlide_cases (env : Env) (w : World) :
  deleteCurrentSlide env w = w
  \/ exists cs,
      currentSlide (editor w) = Some cs
      /\ 1 < length (slides (editor w))
      /\ slides (editor (deleteCurrentSlide env w))
         = deleteSlide (Slide.id cs) (slides (editor w))
      /\ currentSlideIndex (editor (deleteCurrentSlide env w))
         = Z.max 0 (currentSlideIndex (editor w) - 1)
      /\ db (deleteCurrentSlide env w) = db w
      /\ trace (deleteCurrentSlide env w)
         = trace w
           ++ fetch_DELETE_slide (Slide.id cs)
           :: match link env with
              | delivered => []
              | _ => [console_error "Error deleting slide:"]
              end.
Proof.
  unfold deleteCurrentSlide.
  destruct (currentSlide (editor w)) as [cs |] eqn:E; [| now left].
  destruct (1 <? length (slides (editor w))) eqn:L; [| now left].
  apply Nat.ltb_lt in L. right. exists cs.
  destruct (link env); simpl; rewrite <- ?app_assoc; now repeat split.
Qed.

(** X13. Delete does not wait for the storage service: with a current
    slide and more than one slide, the DELETE request for the current
    slide's id is sent, and the slide is removed from the collection and
    the index moved whether or not the request came back; a failed
    request only leaves a console message.  The slides that remain are
    the old ones with another id, in their old order. *)
Theorem delete_is_fire_and_forget (env : Env) (w : World) (cs : Slide) :
  currentSlide (editor w) = Some cs ->
  1 < length (slides (editor w)) ->
  let w' := deleteCurrentSlide env w in
  slides (editor w')
  = filter (fun s => negb (String.eqb (Slide.id s) (Slide.id cs)))
           (slides (editor w))
  /\ currentSlideIndex (editor w')
     = Z.max 0 (currentSlideIndex (editor w) - 1)
  /\ trace w'
     = trace w
       ++ fetch_DELETE_slide (Slide.id cs)
       :: match link env with
          | delivered => []
          | _ => [console_error "Error deleting slide:"]
          end
  /\ db w' = db w.
Proof.
  intros Hcs Hlen w'. unfold w'.
  destruct (deleteCurrentSlide_cases env w)
    as [E | [c [Hc [_ [E1 [E2 [E3 E4]]]]]]].
  - exfalso. unfold deleteCurrentSlide in E. rewrite Hcs in E.
    apply Nat.ltb_lt in Hlen. rewrite Hlen in E.
    apply (f_equal (fun x => length (trace x))) in E.
    destruct (link env); simpl in E; rewrite ?length_app in E; simpl in E; lia.
  - rewrite Hcs in Hc. injection Hc as <-. now repeat split.
Qed.

Lemma delete_is_fire_and_forget_witness :
  slides (editor (deleteCurrentSlide Sample.offline Sample.world))
  = [Sample.first]
  /\ trace (deleteCurrentSlide Sample.offline Sample.world)
     = [fetch_DELETE_slide "s2"; console_error "Error deleting slide:"].
Proof.
  destruct (delete_is_fire_and_forget Sample.offline Sample.world
              Sample.second eq_refl (Nat.lt_succ_diag_r 1))
    as [E1 [_ [E2 _]]].
  split; [exact E1 | exact E2].
Defined.

End CollectionMore.


(* ================================================================== *)
(** ** The active slide *)
(* ================================================================== *)

Module ActiveSlide.

Import Editor EditorFacts PipelineMore CollectionMore.

Lemma index_valid_at (e : State) :
  index_valid e ->
  exists s, at_index (slides e) (currentSlideIndex e) = Some s.
Proof.
  unfold index_valid, at_index. intros H.
  assert ((currentSlideIndex e <? 0)%Z = false) as -> by (apply Z.ltb_ge; lia).
  destruct (nth_error (slides e) (Z.to_nat (currentSlideIndex e))) eqn:E;
    [eauto |].
  apply nth_error_None in E. lia.
Qed.

Lemma effects_at (w : World) (s : Slide) :
  index_valid (editor w) ->
  at_index (slides (editor w)) (currentSlideIndex (editor w)) = Some s ->
  editor (effect_content (effect_currentSlide w))
  = setContent (Slide.content s) (setCurrentSlide (Some s) (editor w)).
Proof.
  unfold index_valid. intros H Hs. unfold effect_currentSlide.
  assert ((0 <? length (slides (editor w)))
          && (currentSlideIndex (editor w)
              <? Z.of_nat (length (slides (editor w))))%Z = true) as ->.
  { apply andb_true_intro. split; [apply Nat.ltb_lt | apply Z.ltb_lt]; lia. }
  rewrite Hs. reflexivity.
Qed.

(** X14. When the active index points at a slide, the two effects make
    that slide the current slide and load its content into the buffer,
    leaving slides and index alone.  When the index is at or past the
    end of the collection the effect on the index does nothing, so the
    current slide stays what it was; when the index is negative and
    there are slides, it clears the current slide. *)
Theorem effects_show_active (w : World) :
  (index_valid (editor w) ->
   exists s,
     at_index (slides (editor w)) (currentSlideIndex (editor w)) = Some s
     /\ currentSlide (editor (effect_content (effect_currentSlide w))) = Some s
     /\ content (editor (effect_content (effect_currentSlide w)))
        = Slide.content s
     /\ settled (editor (effect_content (effect_currentSlide w)))
     /\ slides (editor (effect_content (effect_currentSlide w)))
        = slides (editor w)
     /\ currentSlideIndex (editor (effect_content (effect_currentSlide w)))
        = currentSlideIndex (editor w))
  /\ ((Z.of_nat (length (slides (editor w))) <= currentSlideIndex (editor w))%Z ->
      effect_currentSlide w = w)
  /\ ((currentSlideIndex (editor w) < 0)%Z -> slides (editor w) <> [] ->
      currentSlide (editor (effect_currentSlide w)) = None).
Proof.
  split; [| split].
  - intros H. destruct (index_valid_at _ H) as [s Hs]. exists s.
    rewrite (effects_at w s H Hs). unfold settled. simpl.
    now repeat split.
  - intros H. unfold effect_currentSlide.
    assert ((currentSlideIndex (editor w)
             <? Z.of_nat (length (slides (editor w))))%Z = false) as ->
        by (apply Z.ltb_ge; lia).
    now rewrite andb_false_r.
  - intros H Hne. unfold effect_currentSlide.
    assert ((0 <? length (slides (editor w)))
            && (currentSlideIndex (editor w)
                <? Z.of_nat (length (slides (editor w))))%Z = true) as ->.
    { apply andb_true_intro. split; [apply Nat.ltb_lt | apply Z.ltb_lt].
      - destruct (slides (editor w)); [contradiction | simpl; lia].
      - lia. }
    simpl. unfold at_index.
    now assert ((currentSlideIndex (editor w) <? 0)%Z = true) as ->
        by (apply Z.ltb_lt; lia).
Qed.

Lemma effects_show_active_witness :
  exists s,
    at_index (slides (editor (clickPrevious Sample.world)))
             (currentSlideIndex (editor (clickPrevious Sample.world))) = Some s
    /\ content (editor (effect_content
                          (effect_currentSlide (clickPrevious Sample.world))))
       = Slide.content s.
Proof.
  destruct (proj1 (effects_show_active (clickPrevious Sample.world)))
    as [s [E1 [_ [E2 _]]]].
  - unfold index_valid. simpl. lia.
  - exists s. split; [exact E1 | exact E2].
Defined.




End ActiveSlide.


(* ================================================================== *)
(** ** The active index always points at a slide *)
(* ================================================================== *)

Module WellFormed.

Import Editor EditorFacts PipelineMore CollectionMore.

Lemma deleteSlide_NoDup (id : Id) (l : list Slide) :
  NoDup (map Slide.id l) -> NoDup (map Slide.id (deleteSlide id l)).
Proof.
  unfold deleteSlide. induction l as [| x l IH]; intros H; simpl;
    [constructor |].
  inversion H as [| ? ? Hx Hl]; subst.
  destruct (negb (String.eqb (Slide.id x) id)); [| now apply IH].
  simpl. constructor; [| now apply IH].
  intros Hin. apply Hx. apply in_map_iff in Hin.
  destruct Hin as [y [Hy Hf]]. apply filter_In in Hf.
  apply in_map_iff. exists y. tauto.
Qed.

(** With distinct ids, [deleteSlide] removes at most one slide. *)
Lemma deleteSlide_at_most_one (id : Id) (l : list Slide) :
  NoDup (map Slide.id l) -> length l <= length (deleteSlide id l) + 1.
Proof.
  unfold deleteSlide. induction l as [| x l IH]; intros H; simpl; [lia |].
  inversion H as [| ? ? Hx Hl]; subst.
  destruct (String.eqb_spec (Slide.id x) id) as [E | E]; simpl.
  - rewrite filter_all; [lia |].
    intros y Hy. destruct (String.eqb_spec (Slide.id y) id) as [Ey | Ey];
      [| reflexivity].
    exfalso. apply Hx. rewrite E, <- Ey. now apply in_map.
  - specialize (IH Hl). lia.
Qed.

Lemma well_formed_kept (e e' : State) :
  slide_ids e' = slide_ids e ->
  currentSlideIndex e' = currentSlideIndex e ->
  well_formed e -> well_formed e'.
Proof.
  unfold well_formed, index_valid, slide_ids. intros Hi Hx [Hn Hv].
  rewrite Hi, Hx. split; [assumption |].
  assert (length (slides e') = length (slides e)) as ->; [| assumption].
  rewrite <- (length_map Slide.id (slides e')), Hi. apply length_map.
Qed.

Lemma well_formed_appended (e e' : State) (x : Slide) :
  slides e' = slides e ++ [x] ->
  currentSlideIndex e' = Z.of_nat (length (slides e)) ->
  ~ In (Slide.id x) (slide_ids e) ->
  well_formed e -> well_formed e'.
Proof.
  unfold well_formed, index_valid, slide_ids. intros Hs Hx Hf [Hn Hv].
  rewrite Hs, Hx, map_app, length_app. simpl. split; [| lia].
  apply NoDup_app; [assumption | constructor; [intros [] | constructor] |].
  intros a Ha [<- | []]. contradiction.
Qed.

Lemma step_well_formed (w : World) (ev : Env * Action) :
  well_formed (editor w) -> fresh_for w ev ->
  well_formed (editor (step w ev)).
Proof.
  intros Hw Hf. destruct ev as [env a].
  destruct a; simpl in Hf; simpl step.
  - unfold clickAdd. destruct (add_disabled (editor w)); [assumption |].
    destruct (add_succeeds_dec env w) as [Ha | Hr].
    + destruct (addNewSlide_accepted env w Ha) as [_ [E _]].
      apply (well_formed_appended (editor w) _
               (Server.new_row (storage env) (projectId (editor w))
                               (add_body (editor w))));
        try assumption; rewrite E; reflexivity.
    + now destruct (addNewSlide_rejected env w Hr) as [-> _].
  - unfold clickDuplicate, duplicate_disabled.
    destruct (currentSlide (editor w)) as [cs |] eqn:Hcs; [| assumption].
    destruct (10 <=? length (slides (editor w))) eqn:L; [assumption |].
    apply Nat.leb_gt in L.
    assert (duplicateSlide env w = clickDuplicate env w) as ->.
    { unfold clickDuplicate, duplicate_disabled. rewrite Hcs.
      apply Nat.leb_gt in L. now rewrite L. }
    destruct (clickDuplicate_enabled env w cs Hcs L) as [E1 E2].
    now apply (well_formed_appended (editor w) _ _ E1 E2).
  - rewrite clickDelete_deleteCurrentSlide.
    destruct (deleteCurrentSlide_cases env w)
      as [-> | [cs [_ [Hlen [E1 [E2 _]]]]]]; [assumption |].
    destruct Hw as [Hn Hv]. unfold well_formed, index_valid, slide_ids in *.
    rewrite E1, E2. split; [now apply deleteSlide_NoDup |].
    pose proof (deleteSlide_at_most_one (Slide.id cs) _ Hn).
    pose proof (deleteSlide_length (Slide.id cs) (slides (editor w))).
    lia.
  - destruct Hw as [Hn Hv]. unfold well_formed, index_valid, slide_ids in *.
    unfold clickPrevious.
    destruct (currentSlideIndex (editor w) =? 0)%Z; simpl;
      (split; [assumption | lia]).
  - destruct Hw as [Hn Hv]. unfold well_formed, index_valid, slide_ids in *.
    unfold clickNext.
    destruct (currentSlideIndex (editor w)
              =? Z.of_nat (length (slides (editor w))) - 1)%Z; simpl;
      (split; [assumption | lia]).
  - apply (well_formed_kept (editor w)); [| | assumption].
    + apply (handleContentChange_ids env value w).
    + apply (handleContentChange_frame env value w).
  - assumption.
  - destruct (handleFormatText_slides env format value w)
      as [[_ ->] | [c [E1 [_ [E2 _]]]]]; [assumption |].
    apply (well_formed_kept (editor w)); [| assumption | assumption].
    unfold slide_ids. rewrite E1. apply (handleContentChange_ids env c w).
  - destruct (handleApplyStyleSuggestion_slides env s w)
      as [[_ ->] | [c ->]]; [assumption |].
    apply (well_formed_kept (editor w)); [| | assumption].
    + apply handleContentChange_ids.
    + apply handleContentChange_frame.
  - unfold effect_currentSlide.
    now destruct ((0 <? length (slides (editor w)))
                  && (currentSlideIndex (editor w)
                      <? Z.of_nat (length (slides (editor w))))%Z).
  - unfold effect_content. now destruct (currentSlide (editor w)).
Qed.

Lemma run_well_formed (evs : list (Env * Action)) (w : World) :
  well_formed (editor w) -> run_fresh w evs ->
  well_formed (editor (Async.run_served w evs)).
Proof.
  revert w. induction evs as [| [env a] evs IH]; intros w Hw Hf; simpl;
    [assumption |].
  destruct Hf as [Hf Hr]. simpl in Hr. apply IH; [| assumption].
  rewrite AsyncFacts.serve_step. now apply step_well_formed.
Qed.

(** X16. Provided every request is answered before the next event is
    handled, that is, each event is served before the next one is
    taken: starting from slides with distinct ids and an active index
    that points at one of them, every sequence of events in which Add
    and Duplicate get ids not yet in the collection leaves the ids
    distinct and the active index pointing at a slide; in particular at
    least one slide remains, whatever is deleted. *)
Theorem active_index_stays_valid (w : World) (evs : list (Env * Action)) :
  well_formed (editor w) -> run_fresh w evs ->
  well_formed (editor (Async.run_served w evs))
  /\ 1 <= length (slides (editor (Async.run_served w evs))).
Proof.
  intros Hw Hf. pose proof (run_well_formed evs w Hw Hf) as H.
  split; [assumption |].
  destruct H as [_ Hv]. unfold index_valid in Hv. lia.
Qed.

Lemma active_index_stays_valid_witness :
  well_formed
    (editor (Async.run_served Sample.world
               [(Sample.env, Add); (Sample.env, RunEffectCurrentSlide);
                (Sample.env, Duplicate); (Sample.env, RunEffectCurrentSlide);
                (Sample.offline, Delete); (Sample.env, Delete);
                (Sample.env, Previous); (Sample.env, Delete)])).
Proof.
  refine (proj1 (active_index_stays_valid Sample.world _ _ _)).
  - split.
    + simpl. constructor.
      * intros [H | []]. discriminate.
      * constructor; [intros [] | constructor].
    + unfold index_valid. simpl. lia.
  - simpl. repeat split.
    + intros [H | [H | []]]; discriminate.
    + intros [H | [H | [H | []]]]; discriminate.
Defined.

(** Why the proviso: when a second Delete is clicked while the first is
    awaiting its answer, both find two slides, and once they settle no
    slide is left. *)
Lemma overlapping_deletes_empty_collection :
  slides (editor (Async.world
            (Async.run (Async.idle Sample.world)
               [Async.Do Sample.env Previous;
                Async.Do Sample.env RunEffectCurrentSlide;
                Async.Do Sample.env Delete;
                Async.Do Sample.env Next;
                Async.Do Sample.env RunEffectCurrentSlide;
                Async.Do Sample.env Delete;
                Async.Settle 0; Async.Settle 0]))) = [].
Proof. reflexivity. Qed.

End WellFormed.


(* ================================================================== *)
(** ** The create-slide endpoint and the rows it finds *)
(* ================================================================== *)

Module ServerMore.

Import Server ServerFacts.

(** X17. Whatever the request, the create-slide endpoint leaves the
    projects table and every existing slide row as they are: the slides
    table afterwards is the old one followed by at most one new row. *)
Theorem POST_only_appends (db : Db) (st : Storage) (req : Request) :
  carousel_projects (fst (POST db st req)) = carousel_projects db
  /\ exists added,
      slides (fst (POST db st req)) = slides db ++ added
      /\ length added <= 1.
Proof.
  split; [apply POST_projects |].
  POST_paths db st req; simpl;
    solve [ exists []; rewrite app_nil_r; auto
          | eexists; split; [reflexivity | simpl; lia] ].
Qed.

(** X18. The endpoint has no limit of its own: when the ownership check
    finds the project and the insert does not fail, a request with a
    readable body creates a row, however many slides the project already
    has and whatever their numbers, and is answered with status 200 and
    that row. *)
Theorem POST_has_no_cap (db : Db) (st : Storage) (req : Request)
        (userId : Id) (body : Body) (p : Project) :
  session req = Some userId -> json req = Some body ->
  select_project db st (params_id req) userId = Some p ->
  insert_error st = false ->
  slides (fst (POST db st req))
  = slides db ++ [new_row st (params_id req) body]
  /\ snd (POST db st req) = json_slide (new_row st (params_id req) body)
  /\ status (snd (POST db st req)) = 200.
Proof.
  intros Hs Hj Hp Hi. rewrite (POST_readable db st req _ _ Hs Hj), Hp.
  unfold insert_slide. rewrite Hi. now repeat split.
Qed.

Lemma POST_has_no_cap_witness :
  length (slides (fst (POST Cases.crowded Sample.healthy Cases.one_more))) = 13
  /\ status (snd (POST Cases.crowded Sample.healthy Cases.one_more)) = 200.
Proof.
  destruct (POST_has_no_cap Cases.crowded Sample.healthy Cases.one_more
              "alice" _ _ eq_refl eq_refl eq_refl eq_refl) as [E1 [_ E2]].
  split; [now rewrite E1 | exact E2].
Defined.

End ServerMore.


(* ================================================================== *)
(** ** The project endpoint *)
(* ================================================================== *)

Module ProjectsFacts.

Import Projects.

(** *** Sorting the slides of a view *)

Lemma insert_permutation (x : Columns.t) (l : list Columns.t) :
  Permutation (insert x l) (x :: l).
Proof.
  induction l as [| y l IH]; simpl; [reflexivity |].
  destruct (Columns.slide_number x <=? Columns.slide_number y);
    [reflexivity |].
  rewrite IH. apply perm_swap.
Qed.

Lemma sort_permutation (l : list Columns.t) : Permutation (sort l) l.
Proof.
  induction l as [| x l IH]; simpl; [reflexivity |].
  rewrite insert_permutation. now constructor.
Qed.

Lemma insert_sorted (x : Columns.t) (l : list Columns.t) :
  StronglySorted by_number l -> StronglySorted by_number (insert x l).
Proof.
  induction l as [| y l IH]; intros H; simpl.
  - repeat constructor.
  - apply StronglySorted_inv in H. destruct H as [Hl Hy].
    destruct (Nat.leb_spec (Columns.slide_number x) (Columns.slide_number y))
      as [Hxy | Hyx].
    + constructor; [now constructor |].
      constructor; [exact Hxy |].
      apply Forall_impl with (2 := Hy). unfold by_number. intros a Ha. lia.
    + constructor; [now apply IH |].
      eapply Permutation_Forall; [symmetry; apply insert_permutation |].
      constructor; [unfold by_number; lia | assumption].
Qed.

Lemma sort_sorted (l : list Columns.t) : StronglySorted by_number (sort l).
Proof.
  induction l as [| x l IH]; simpl; [constructor | now apply insert_sorted].
Qed.

(** *** The ways through [GET] *)

Lemma GET_unauthenticated (db : Db) (f : Faults) (req : Request) :
  session req = None ->
  GET db f req = (db, json_error "Authentication required" 401).
Proof.
  intros H. unfold GET, GET_try, requireAuth. now rewrite H.
Qed.

Lemma GET_relationships (db : Db) (f : Faults) (req : Request)
      (userId : Id) (p : Project) :
  session req = Some userId -> relationship_error f = false ->
  project_of db (params_id req) userId = Some p ->
  GET db f req
  = (db, json_ok (view_payload
                    {| project := p;
                       view_slides := sort (slides_of db (id p));
                       view_template := template_of db (template_id p);
                       view_document := document_of db (document_id p) |})).
Proof.
  intros Hs Hr Hp. unfold GET, GET_try, requireAuth.
  rewrite Hs. simpl. now rewrite Hr, Hp.
Qed.

Lemma GET_fallback (db : Db) (f : Faults) (req : Request)
      (userId : Id) (p : Project) :
  session req = Some userId -> relationship_error f = true ->
  project_error f = false ->
  project_of db (params_id req) userId = Some p ->
  GET db f req
  = (db, json_ok (view_payload
                    {| project := p;
                       view_slides :=
                         sort (if slides_error f then []
                               else order (slides_of db (id p)));
                       view_template :=
                         if template_error f then None
                         else template_of db (template_id p);
                       view_document :=
                         if document_error f then None
                         else document_of db (document_id p) |})).
Proof.
  intros Hs Hr He Hp. unfold GET, GET_try, requireAuth.
  rewrite Hs. simpl. now rewrite Hr, He, Hp.
Qed.

Lemma GET_not_found (db : Db) (f : Faults) (req : Request) (userId : Id) :
  session req = Some userId ->
  project_of db (params_id req) userId = None
  \/ relationship_error f = true /\ project_error f = true ->
  GET db f req = (db, json_error "Project not found" 404).
Proof.
  intros Hs H. unfold GET, GET_try, requireAuth. rewrite Hs. simpl.
  destruct H as [-> | [-> ->]].
  - now destruct (relationship_error f), (project_error f).
  - reflexivity.
Qed.

Lemma project_of_none (db : Db) (id userId : Id) :
  (forall p, In p (carousel_projects db) -> matches id userId p = false) ->
  project_of db id userId = None.
Proof.
  intros H. unfold project_of.
  assert (filter (matches id userId) (carousel_projects db) = []) as ->;
    [| reflexivity].
  induction (carousel_projects db) as [| p l IH]; simpl; [reflexivity |].
  rewrite (H p) by now left. apply IH. intros q Hq. apply H. now right.
Qed.

(** X19. [GET] answers a request without a session with 401, and a
    request of a signed-in caller for a project no row of which has both
    that id and that user with 404 "Project not found", whichever
    queries fail; so it does when both project queries fail, even for
    the owner.  It never changes the store. *)
Theorem GET_access (db : Db) (f : Faults) (req : Request) :
  (session req = None ->
   GET db f req = (db, json_error "Authentication required" 401))
  /\ (forall userId,
         session req = Some userId ->
         (forall p, In p (carousel_projects db) ->
                    matches (params_id req) userId p = false) ->
         GET db f req = (db, json_error "Project not found" 404))
  /\ (session req <> None ->
      relationship_error f = true -> project_error f = true ->
      GET db f req = (db, json_error "Project not found" 404))
  /\ fst (GET db f req) = db.
Proof.
  split; [apply GET_unauthenticated |]. split; [| split].
  - intros userId Hs Hn. apply (GET_not_found db f req userId Hs).
    left. now apply project_of_none.
  - intros Hs Hr He. destruct (session req) as [userId |] eqn:E;
      [| contradiction].
    apply (GET_not_found db f req userId E). now right.
  - unfold GET, GET_try, requireAuth.
    destruct (session req); [| reflexivity]. simpl.
    destruct (if relationship_error f then None
              else project_of db (params_id req) i); [reflexivity |].
    now destruct (if project_error f then None
                  else project_of db (params_id req) i).
Qed.

Lemma GET_access_witness :
  GET Cases.library healthy Cases.from_bob
  = (Cases.library, json_error "Project not found" 404).
Proof.
  refine (proj1 (proj2 (GET_access Cases.library healthy Cases.from_bob))
                "bob"%string eq_refl _).
  intros p [<- | [<- | []]]; reflexivity.
Defined.

(** X20. When [GET] finds the caller's project, by the query with nested
    relations or, if that one fails, by the basic query, the answer has
    status 200 and carries that project with its slides in ascending
    order of [slide_number].  These slides are exactly the project's
    slide rows, rearranged, unless the fallback's slides query failed,
    in which case the list is empty and the status still 200. *)
Theorem GET_sorts_slides (db : Db) (f : Faults) (req : Request)
        (userId : Id) (p : Project) :
  session req = Some userId ->
  project_of db (params_id req) userId = Some p ->
  relationship_error f = false \/ project_error f = false ->
  exists v,
    snd (GET db f req) = json_ok (view_payload v)
    /\ project v = p
    /\ StronglySorted by_number (view_slides v)
    /\ (relationship_error f = false \/ slides_error f = false ->
        Permutation (view_slides v) (slides_of db (id p)))
    /\ (relationship_error f = true -> slides_error f = true ->
        view_slides v = []).
Proof.
  intros Hs Hp Hq.
  destruct (relationship_error f) eqn:Hr.
  - destruct Hq as [Hq | Hq]; [discriminate |].
    rewrite (GET_fallback db f req userId p Hs Hr Hq Hp).
    eexists. split; [reflexivity |]. simpl.
    split; [reflexivity |]. split; [apply sort_sorted |]. split.
    + intros [H | H]; [discriminate |]. rewrite H. unfold order.
      now rewrite !sort_permutation.
    + intros _ ->. reflexivity.
  - rewrite (GET_relationships db f req userId p Hs Hr Hp).
    eexists. split; [reflexivity |]. simpl.
    split; [reflexivity |]. split; [apply sort_sorted |]. split.
    + intros _. apply sort_permutation.
    + discriminate.
Qed.

Lemma GET_sorts_slides_witness :
  exists v,
    snd (GET Cases.library no_relationships Cases.from_alice)
    = json_ok (view_payload v)
    /\ map Columns.id (view_slides v) = ["s1"; "s2"; "s3"]%string.
Proof.
  destruct (GET_sorts_slides Cases.library no_relationships Cases.from_alice
              "alice" Cases.launch eq_refl eq_refl (or_intror eq_refl))
    as [v [E _]].
  exists v. split; [exact E |].
  injection E as <-. reflexivity.
Defined.

(** X21. When only the query with nested relations fails, the fallback
    composes the answer the relations would have given: the same
    project, the same template and document, and the same slides up to
    the order of slides with equal numbers. *)
Theorem GET_fallback_agrees (db : Db) (f : Faults) (req : Request)
        (userId : Id) (p : Project) :
  session req = Some userId ->
  project_of db (params_id req) userId = Some p ->
  relationship_error f = true -> project_error f = false ->
  slides_error f = false -> template_error f = false ->
  document_error f = false ->
  exists v v',
    snd (GET db healthy req) = json_ok (view_payload v)
    /\ snd (GET db f req) = json_ok (view_payload v')
    /\ project v' = project v
    /\ view_template v' = view_template v
    /\ view_document v' = view_document v
    /\ Permutation (view_slides v') (view_slides v)
    /\ StronglySorted by_number (view_slides v').
Proof.
  intros Hs Hp Hr He Hsl Ht Hd.
  rewrite (GET_relationships db healthy req userId p Hs eq_refl Hp).
  rewrite (GET_fallback db f req userId p Hs Hr He Hp).
  rewrite Hsl, Ht, Hd. do 2 eexists.
  split; [reflexivity |]. split; [reflexivity |]. simpl.
  repeat split; [| apply sort_sorted].
  unfold order. now rewrite !sort_permutation.
Qed.

Lemma GET_fallback_agrees_witness :
  exists v v',
    snd (GET Cases.library healthy Cases.from_alice) = json_ok (view_payload v)
    /\ snd (GET Cases.library no_relationships Cases.from_alice)
       = json_ok (view_payload v')
    /\ project v' = project v
    /\ Permutation (view_slides v') (view_slides v).
Proof.
  destruct (GET_fallback_agrees Cases.library no_relationships Cases.from_alice
              "alice" Cases.launch eq_refl eq_refl eq_refl eq_refl eq_refl
              eq_refl eq_refl) as [v [v' [E1 [E2 [E3 [_ [_ [E4 _]]]]]]]].
  exists v, v'. repeat split; assumption.
Defined.

(** *** The ways through [PUT] and [DELETE] *)

Lemma PUT_unauthenticated (db : Db) (f : Faults) (req : Request) :
  session req = None ->
  PUT db f req = (db, json_error "Authentication required" 401).
Proof.
  intros H. unfold PUT, PUT_try, requireAuth. now rewrite H.
Qed.

Lemma PUT_unreadable (db : Db) (f : Faults) (req : Request) (userId : Id) :
  session req = Some userId -> json req = None ->
  PUT db f req = (db, json_error "Internal server error" 500).
Proof.
  intros Hs Hj. unfold PUT, PUT_try, requireAuth, request_json.
  now rewrite Hs, Hj.
Qed.

Lemma PUT_readable (db : Db) (f : Faults) (req : Request)
      (userId : Id) (body : Patch.t) :
  session req = Some userId -> json req = Some body ->
  PUT db f req
  = match (if update_error f then None
           else project_of db (params_id req) userId) with
    | None => (db, json_error "Failed to update project" 500)
    | Some p =>
        (with_projects
           (map (fun q => if matches (params_id req) userId q
                          then patched body q else q)
                (carousel_projects db)) db,
         json_ok (project_payload (patched body p)))
    end.
Proof.
  intros Hs Hj. unfold PUT, PUT_try, requireAuth, request_json.
  rewrite Hs, Hj. simpl.
  now destruct (if update_error f then None
                else project_of db (params_id req) userId).
Qed.

(** The five columns apart, [PUT] keeps every row: ids and owners stay
    in place. *)
Lemma PUT_keys (db : Db) (f : Faults) (req : Request) :
  map id (carousel_projects (fst (PUT db f req)))
  = map id (carousel_projects db)
  /\ map user_id (carousel_projects (fst (PUT db f req)))
     = map user_id (carousel_projects db).
Proof.
  destruct (session req) as [userId |] eqn:Hs.
  2:{ now rewrite PUT_unauthenticated. }
  destruct (json req) as [body |] eqn:Hj.
  2:{ now rewrite (PUT_unreadable db f req userId). }
  rewrite (PUT_readable db f req userId body Hs Hj).
  destruct (if update_error f then None
            else project_of db (params_id req) userId); [| now split].
  simpl. rewrite !map_map.
  split; apply map_ext; intros q;
    now destruct (matches (params_id req) userId q).
Qed.

(** X22. [PUT] rejects without touching the store: a request without a
    session with 401, a body that cannot be read with 500, and a
    readable request for which not exactly one row has both the id and
    the caller as owner (a project of someone else, or none), like a
    failing update, with 500 "Failed to update project", not with
    404. *)
Theorem PUT_rejections (db : Db) (f : Faults) (req : Request) :
  (session req = None ->
   PUT db f req = (db, json_error "Authentication required" 401))
  /\ (session req <> None -> json req = None ->
      PUT db f req = (db, json_error "Internal server error" 500))
  /\ (forall userId,
         session req = Some userId -> json req <> None ->
         project_of db (params_id req) userId = None
         \/ update_error f = true ->
         PUT db f req = (db, json_error "Failed to update project" 500)).
Proof.
  split; [apply PUT_unauthenticated |]. split.
  - intros Hs Hj. destruct (session req) as [userId |] eqn:E;
      [| contradiction].
    now apply (PUT_unreadable db f req userId).
  - intros userId Hs Hj H.
    destruct (json req) as [body |] eqn:E; [| contradiction].
    rewrite (PUT_readable db f req userId body Hs E).
    destruct H as [-> | ->]; [| reflexivity].
    now destruct (update_error f).
Qed.

Lemma PUT_rejections_witness :
  PUT Cases.library healthy Cases.from_bob
  = (Cases.library, json_error "Failed to update project" 500).
Proof.
  refine (proj2 (proj2 (PUT_rejections Cases.library healthy Cases.from_bob))
                "bob"%string eq_refl _ _).
  - discriminate.
  - left. reflexivity.
Defined.

(** X23. When exactly one row has the id and the caller as owner and
    the update does not fail, [PUT] answers 200 with that row patched
    and stores it in place of the old one: [description],
    [template_id], [document_id] and [target_audience] take the value of
    the body, or null when the body has none or an empty one, and
    [title] takes the body's title when there is one.  Every other row
    stays as it is, and no request, accepted or not, changes the id or
    the owner of a row or touches another table. *)
Theorem PUT_patches_own_row (db : Db) (f : Faults) (req : Request) :
  (forall userId body p,
      session req = Some userId -> json req = Some body ->
      update_error f = false ->
      project_of db (params_id req) userId = Some p ->
      snd (PUT db f req) = json_ok (project_payload (patched body p))
      /\ In (patched body p) (carousel_projects (fst (PUT db f req)))
      /\ forall q,
          In q (carousel_projects db) ->
          matches (params_id req) userId q = false ->
          In q (carousel_projects (fst (PUT db f req))))
  /\ map id (carousel_projects (fst (PUT db f req)))
     = map id (carousel_projects db)
  /\ map user_id (carousel_projects (fst (PUT db f req)))
     = map user_id (carousel_projects db)
  /\ slides (fst (PUT db f req)) = slides db
  /\ brand_voice_templates (fst (PUT db f req)) = brand_voice_templates db
  /\ documents (fst (PUT db f req)) = documents db.
Proof.
  split.
  - intros userId body p Hs Hj Hu Hp.
    rewrite (PUT_readable db f req userId body Hs Hj), Hu, Hp. simpl.
    split; [reflexivity |]. split.
    + apply in_map_iff. exists p.
      unfold project_of in Hp. apply ServerFacts.single_In in Hp.
      apply filter_In in Hp. destruct Hp as [Hin Hm]. now rewrite Hm.
    + intros q Hq Hm. apply in_map_iff. exists q. now rewrite Hm.
  - destruct (PUT_keys db f req) as [K1 K2].
    split; [exact K1 | split; [exact K2 |]].
    destruct (session req) as [userId |] eqn:Hs.
    2:{ now rewrite PUT_unauthenticated. }
    destruct (json req) as [body |] eqn:Hj.
    2:{ now rewrite (PUT_unreadable db f req userId). }
    rewrite (PUT_readable db f req userId body Hs Hj).
    now destruct (if update_error f then None
                  else project_of db (params_id req) userId).
Qed.

Lemma PUT_patches_own_row_witness :
  snd (PUT Cases.library healthy Cases.from_alice)
  = json_ok (project_payload
               {| id := "p1"; user_id := "alice"; title := lit "Launch";
                  description := Some (lit "Summer"); template_id := None;
                  document_id := None; target_audience := None |})
  /\ In Cases.recap
        (carousel_projects (fst (PUT Cases.library healthy Cases.from_alice))).
Proof.
  destruct (proj1 (PUT_patches_own_row Cases.library healthy Cases.from_alice)
                  "alice"%string Cases.summer Cases.launch
                  eq_refl eq_refl eq_refl eq_refl) as [E1 [_ E2]].
  split; [exact E1 |].
  apply E2; [right; left; reflexivity | reflexivity].
Defined.

Lemma DELETE_unauthenticated (db : Db) (f : Faults) (req : Request) :
  session req = None ->
  DELETE db f req = (db, json_error "Authentication required" 401).
Proof.
  intros H. unfold DELETE, DELETE_try, requireAuth. now rewrite H.
Qed.

Lemma DELETE_authenticated (db : Db) (f : Faults) (req : Request)
      (userId : Id) :
  session req = Some userId ->
  DELETE db f req
  = if delete_error f then (db, json_error "Failed to delete project" 500)
    else (with_projects
            (filter (fun q => negb (matches (params_id req) userId q))
                    (carousel_projects db)) db,
          json_ok success_payload).
Proof.
  intros H. unfold DELETE, DELETE_try, requireAuth. rewrite H. simpl.
  now destruct (delete_error f).
Qed.

Lemma filter_twice {A} (g : A -> bool) (l : list A) :
  filter g (filter g l) = filter g l.
Proof.
  induction l as [| x l IH]; simpl; [reflexivity |].
  destruct (g x) eqn:E; simpl; [rewrite E; now f_equal | assumption].
Qed.

(** X24. A [DELETE] of a signed-in caller that the storage service does
    not fail is always answered with 200 and success, whether or not a
    row was there to delete: the projects table afterwards holds, in
    their old order, exactly the rows that do not have both the id and
    the caller as owner, so a project of someone else, or one that does
    not exist, is left alone without an error.  Repeating the request
    gives the same answer and the same table. *)
Theorem DELETE_removes_own_rows (db : Db) (f : Faults) (req : Request)
        (userId : Id) :
  session req = Some userId -> delete_error f = false ->
  snd (DELETE db f req) = json_ok success_payload
  /\ carousel_projects (fst (DELETE db f req))
     = filter (fun q => negb (matches (params_id req) userId q))
              (carousel_projects db)
  /\ ((forall p, In p (carousel_projects db) ->
                 matches (params_id req) userId p = false) ->
      carousel_projects (fst (DELETE db f req)) = carousel_projects db)
  /\ DELETE (fst (DELETE db f req)) f req = DELETE db f req.
Proof.
  intros Hs Hd. rewrite !(DELETE_authenticated _ f req userId Hs), Hd. simpl.
  split; [reflexivity |]. split; [reflexivity |]. split.
  - intros H. apply EditorFacts.filter_all. intros p Hp.
    now rewrite (H p Hp).
  - unfold with_projects. simpl. now rewrite filter_twice.
Qed.

Lemma DELETE_removes_own_rows_witness :
  DELETE Cases.library healthy Cases.from_bob
  = (Cases.library, json_ok success_payload)
  /\ carousel_projects (fst (DELETE Cases.library healthy Cases.from_alice))
     = [Cases.recap].
Proof.
  split.
  - reflexivity.
  - refine (proj1 (proj2 (DELETE_removes_own_rows
              Cases.library healthy Cases.from_alice "alice"
              eq_refl eq_refl))).
Defined.

End ProjectsFacts.
